(** * convert_cookies.py: JSON cookie export to Netscape cookie file

    A shallow embedding of [src/util/convert_cookies.py] and the properties
    of its conversion pass.  The script is twenty lines of Python; what makes
    its behaviour worth writing down is Python itself: [.get] on something
    that is not a dict, [int()] of a float, truthiness, [str.join] on a
    non-string, iteration over a value that is not a list, [f.write] of a
    character the file's encoding cannot write.  The embedding keeps all of
    these, as results in an error monad. *)

From Stdlib Require Import ZArith String Ascii Lia.
From Stdlib Require Import Floats.SpecFloat.
From stdpp Require Import gmap strings list pretty.

Local Open Scope Z_scope.

(** ** Python values *)

(** What [json.load] can return.  A Python float is an IEEE binary64 number,
    here a [spec_float] (sign, mantissa, exponent; zeros, infinities, NaN).
    A JSON object becomes a dict with string keys; [.get] only looks keys up,
    so a finite map is all the script can see of it. *)
#[warnings="-register-all"]
Inductive pyval : Type :=
| PNone
| PBool (b : bool)
| PInt (z : Z)
| PFloat (f : spec_float)
| PStr (s : string)
| PList (l : list pyval)
| PDict (d : gmap string pyval).

(** The exceptions the script can die of.  None is caught anywhere. *)
Inductive exn : Type :=
| FileNotFoundError
| PermissionError
| JSONDecodeError
| UnicodeDecodeError
| RecursionError
| AttributeError
| TypeError
| ValueError
| OverflowError
| UnicodeEncodeError
| SyntaxError.

(** ** The error monad *)

Definition result (A : Type) : Type := (exn + A)%type.

#[global] Instance result_ret : MRet (sum exn) := λ A x, inr x.
#[global] Instance result_bind : MBind (sum exn) :=
  λ A B f m, match m with inl e => inl e | inr x => f x end.

Definition raise {A : Type} (e : exn) : result A := inl e.

(** ** Characters *)

(** A str is a sequence of characters.  The characters below 128 are ASCII;
    the other values of [ascii] stand for the characters beyond ASCII, lone
    surrogates among them.  The script itself looks at three characters
    only, all ASCII: the dot, the tab and the line feed. *)
Definition tab : string := String "009"%char EmptyString.
Definition newline : string := String "010"%char EmptyString.

Definition is_ascii (c : ascii) : bool :=
  match c with
  | Ascii _ _ _ _ _ _ _ high => negb high
  end.

(** An encoding, as far as the script can tell one from another: which of
    the characters beyond ASCII it can write.  ASCII itself every encoding
    a locale can name writes. *)
Fixpoint encodable (enc : ascii → bool) (s : string) : bool :=
  match s with
  | EmptyString => true
  | String c s' => (is_ascii c || enc c) && encodable enc s'
  end.

(** ** Builtins *)

(** [cookie.get(key, dflt)]: only a dict has [.get]. *)
Definition py_get (cookie : pyval) (key : string) (dflt : pyval) : result pyval :=
  match cookie with
  | PDict d => mret (default dflt (d !! key))
  | _ => raise AttributeError
  end.

(** [v.startswith(p)]: only a str has it. *)
Definition py_startswith (v : pyval) (p : string) : result bool :=
  match v with
  | PStr s => mret (String.prefix p s)
  | _ => raise AttributeError
  end.

(** Truth value testing: [None], [False], zero of any numeric type and empty
    containers are false, everything else is true (NaN included). *)
Definition truthy (v : pyval) : bool :=
  match v with
  | PNone => false
  | PBool b => b
  | PInt z => negb (z =? 0)
  | PFloat (S754_zero _) => false
  | PFloat _ => true
  | PStr s => negb (String.eqb s "")
  | PList l => match l with [] => false | _ => true end
  | PDict d => negb (bool_decide (d = ∅))
  end.

(** [int(f)] for a float: truncation towards zero, exact. *)
Definition float_trunc (f : spec_float) : result Z :=
  match f with
  | S754_zero _ => mret 0
  | S754_finite s m e =>
      let a := Z.shiftl (Z.pos m) e in
      mret (if s then - a else a)
  | S754_infinity _ => raise OverflowError
  | S754_nan => raise ValueError
  end.

(** [len(v)] *)
Definition py_len (v : pyval) : result Z :=
  match v with
  | PStr s => mret (Z.of_nat (String.length s))
  | PList l => mret (Z.of_nat (length l))
  | PDict d => mret (Z.of_nat (size d))
  | _ => raise TypeError
  end.

(** [str(n)] for an int: its decimal digits, with a minus sign when negative.
    (The interpreter refuses to print an int of more than 4300 digits, and
    refuses as well to read one, in [json.load] and in [int(s)]; a float has
    at most 309.  No int the script prints is that long.) *)
Definition py_str (n : Z) : string := pretty n.

(** [sep.join(items)]: every item has to be a str. *)
Fixpoint py_join (sep : string) (items : list pyval) : result string :=
  match items with
  | [] => mret ""
  | [PStr s] => mret s
  | PStr s :: rest => r ← py_join sep rest; mret (s +:+ sep +:+ r)
  | _ :: _ => raise TypeError
  end.

Fixpoint chars (s : string) : list pyval :=
  match s with
  | EmptyString => []
  | String c s' => PStr (String c EmptyString) :: chars s'
  end.

(** [iter(v)] as the [for] statement takes it: a list gives its elements, a
    str its characters, a dict its keys. *)
Definition py_iter (v : pyval) : result (list pyval) :=
  match v with
  | PList l => mret l
  | PStr s => mret (chars s)
  | PDict d => mret (PStr <$> (map_to_list d).*1)
  | _ => raise TypeError
  end.

(** ** The process and its file system *)

(** A file as the script can observe it: whether [open] may read it, whether
    [open] may truncate it, and its text.  Files hold text as the script
    handles it, a sequence of characters; the bytes that stand for the text
    on disk, which depend on the encoding, are left out. *)
Record file : Type := File {
  readable : bool;
  writable : bool;
  data : string
}.

(** The world the script runs in: the version of the interpreter
    ([sys.version_info[0]] and [[1]]), the encoding of the locale, which
    [open] takes when it is given none, the files by path, and the lines
    printed so far. *)
Record world : Type := World {
  version_major : Z;
  version_minor : Z;
  can_encode : ascii → bool;
  files : gmap string file;
  stdout : list string
}.

(** The script holds f-strings (lines 37 and 38), which came with Python
    3.6: an older interpreter refuses the file as a whole, before it runs
    any of it. *)
Definition accepts_f_strings (w : world) : bool :=
  (3 <? version_major w) || ((version_major w =? 3) && (6 <=? version_minor w)).

(** How the process ends: it falls off the end of the script, it calls
    [exit(code)], or it dies of an exception nobody catches. *)
Inductive outcome : Type :=
| Finished
| SystemExit (code : Z)
| Uncaught (e : exn).

(** The exit status the shell sees.  The interpreter turns an uncaught
    exception into a traceback and status 1. *)
Definition exit_status (o : outcome) : Z :=
  match o with
  | Finished => 0
  | SystemExit code => code
  | Uncaught _ => 1
  end.

Definition input_file : string := "../config/cookies.json".
Definition output_file : string := "../config/cookies.txt".

Definition print (line : string) (w : world) : world :=
  World (version_major w) (version_minor w) (can_encode w)
        (files w) (stdout w ++ [line]).

(** [open(p, "r")] followed by reading the whole text. *)
Definition open_read (w : world) (p : string) : result string :=
  match files w !! p with
  | None => raise FileNotFoundError
  | Some f => if readable f then mret (data f) else raise PermissionError
  end.

(** [open(p, "w")]: an existing file is truncated, a missing one created.
    (The directory is that of the input file, which was just read.) *)
Definition open_write (w : world) (p : string) : result world :=
  match files w !! p with
  | None =>
      mret (World (version_major w) (version_minor w) (can_encode w)
                  (<[p := File true true ""]> (files w)) (stdout w))
  | Some f =>
      if writable f
      then mret (World (version_major w) (version_minor w) (can_encode w)
                       (<[p := File (readable f) true ""]> (files w)) (stdout w))
      else raise PermissionError
  end.

(** What the file holds when the [with] block closes it. *)
Definition close_with (p : string) (written : string) (w : world) : world :=
  World (version_major w) (version_minor w) (can_encode w)
        (alter (λ f, File (readable f) (writable f) written) p (files w))
        (stdout w).

Definition file_data (w : world) (p : string) : option string :=
  data <$> files w !! p.

(** ** The script *)

(** The names bound by one turn of the loop, as [str.join] receives them.
    [include_subdomain], [secure] and [expires] are strings by construction;
    the other four are whatever the record holds. *)
Record locals : Type := Locals {
  domain : pyval;
  include_subdomain : string;
  path : pyval;
  secure : string;
  expires : string;
  name : pyval;
  value : pyval
}.

Definition join_args (r : locals) : list pyval :=
  [domain r; PStr (include_subdomain r); path r; PStr (secure r);
   PStr (expires r); name r; value r].

Definition header : string :=
  "# Netscape HTTP Cookie File" +:+ newline +:+ newline.

Section Script.

(** The two library functions the script leans on are taken as they are:
    [json.load] on the text of the input file (any exception it raises is
    an [inl]), and [int(s)] on a str ([None] is its [ValueError]). *)
Variable json_load : string → result pyval.
Variable int_of_str : string → option Z.

(** [int(v)] *)
Definition py_int (v : pyval) : result Z :=
  match v with
  | PInt z => mret z
  | PBool b => mret (if b then 1 else 0)
  | PFloat f => float_trunc f
  | PStr s => match int_of_str s with Some z => mret z | None => raise ValueError end
  | PNone | PList _ | PDict _ => raise TypeError
  end.

(** Lines 24-30: the body of the loop up to the call of [join]. *)
Definition cookie_locals (cookie : pyval) : result locals :=
  domain ← py_get cookie "domain" (PStr "");
  dotted ← py_startswith domain ".";
  let include_subdomain := if dotted : bool then "TRUE" else "FALSE" in
  path ← py_get cookie "path" (PStr "/");
  flag ← py_get cookie "secure" (PBool false);
  let secure := if truthy flag then "TRUE" else "FALSE" in
  date ← py_get cookie "expirationDate" (PInt 2147483647);
  seconds ← py_int date;
  let expires := py_str seconds in
  name ← py_get cookie "name" (PStr "");
  value ← py_get cookie "value" (PStr "");
  mret (Locals domain include_subdomain path secure expires name value).

(** Line 31: the text handed to [f.write]. *)
Definition cookie_line (cookie : pyval) : result string :=
  r ← cookie_locals cookie;
  body ← py_join tab (join_args r);
  mret (body +:+ newline).

(** [f.write(text)] on a file opened with the encoding [enc]: the text is
    encoded as a whole when it is written, and a character the encoding
    cannot write raises UnicodeEncodeError with none of the text written.
    The result is what the file holds after the call. *)
Definition py_write (enc : ascii → bool) (f text : string) : result string :=
  if encodable enc text then mret (f +:+ text) else raise UnicodeEncodeError.

(** Lines 24-31: one turn of the loop, [f.write] included.  The turn yields
    the line it wrote. *)
Definition write_line (enc : ascii → bool) (cookie : pyval) : result string :=
  line ← cookie_line cookie;
  if encodable enc line then mret line else raise UnicodeEncodeError.

(** Lines 23-31: the loop.  [f] is what has been written so far; an
    exception leaves the file with exactly that. *)
Fixpoint write_cookies (enc : ascii → bool) (f : string) (cookies : list pyval)
    : string * result unit :=
  match cookies with
  | [] => (f, mret tt)
  | cookie :: rest =>
      match write_line enc cookie with
      | inl e => (f, raise e)
      | inr line => write_cookies enc (f +:+ line) rest
      end
  end.

(** Lines 21-31: the [with] block.  The header is written before the loop
    asks [cookies] for an iterator. *)
Definition write_output (enc : ascii → bool) (cookies : pyval)
    : string * result unit :=
  match py_write enc EmptyString header with
  | inl e => (EmptyString, raise e)
  | inr f =>
      match py_iter cookies with
      | inl e => (f, raise e)
      | inr items => write_cookies enc f items
      end
  end.

(** Lines 33-39: the empty check and the summary. *)
Definition report (cookies : pyval) (w : world) : world * outcome :=
  if negb (truthy cookies)
  then (print "No cookies found in JSON. Aborting." w, SystemExit 1)
  else
    match py_len cookies with
    | inl e => (w, Uncaught e)
    | inr n =>
        let w := print ("Converted " +:+ py_str n +:+
                        " cookies from JSON to Netscape format.") w in
        let w := print ("Saved to " +:+ output_file +:+ ".") w in
        let w := print "Conversion complete." w in
        (w, Finished)
    end.

(** Lines 21-39: everything after [json.load] returned [cookies]. *)
Definition convert (cookies : pyval) (w : world) : world * outcome :=
  match open_write w output_file with
  | inl e => (w, Uncaught e)
  | inr w =>
      let '(written, r) := write_output (can_encode w) cookies in
      let w := close_with output_file written w in
      match r with
      | inl e => (w, Uncaught e)
      | inr _ => report cookies w
      end
  end.

(** Lines 18-19: [open] and [json.load]. *)
Definition load (w : world) : result pyval :=
  text ← open_read w input_file;
  json_load text.

(** The whole script.  The interpreter compiles the file before it runs
    line 1; one that knows no f-strings stops there with SyntaxError. *)
Definition main (w : world) : world * outcome :=
  if negb (accepts_f_strings w) then (w, Uncaught SyntaxError)
  else if version_major w <? 3
  then (print "This script requires Python 3. Please upgrade your Python version." w,
        SystemExit 1)
  else
    match load w with
    | inl e => (w, Uncaught e)
    | inr cookies => convert cookies w
    end.

End Script.

(** ** Vocabulary for the properties *)

(** An optional key of a record that, when present, holds a str. *)
Definition str_or_missing (o : option pyval) : bool :=
  match o with
  | None | Some (PStr _) => true
  | Some _ => false
  end.

Definition bool_or_missing (o : option pyval) : bool :=
  match o with
  | None | Some (PBool _) => true
  | Some _ => false
  end.

(** An optional key that, when present, holds a number: an int or a finite
    float. *)
Definition number_or_missing (o : option pyval) : bool :=
  match o with
  | None | Some (PInt _) | Some (PFloat (S754_zero _))
  | Some (PFloat (S754_finite _ _ _)) => true
  | Some _ => false
  end.

(** A cookie record: a mapping whose six keys are all optional, [domain],
    [path], [name] and [value] strings, [secure] a boolean,
    [expirationDate] numeric. *)
Definition is_cookie_record (v : pyval) : bool :=
  match v with
  | PDict d =>
      str_or_missing (d !! "domain") && str_or_missing (d !! "path") &&
      bool_or_missing (d !! "secure") &&
      number_or_missing (d !! "expirationDate") &&
      str_or_missing (d !! "name") && str_or_missing (d !! "value")
  | _ => false
  end.



(** The text holds a line feed. *)
Fixpoint has_newline (s : string) : bool :=
  match s with
  | EmptyString => false
  | String c s' => Ascii.eqb c "010" || has_newline s'
  end.

Definition single_line (o : option pyval) : bool :=
  match o with
  | Some (PStr s) => negb (has_newline s)
  | _ => true
  end.

(** None of the four strings of the record holds a line feed. *)
Definition single_line_record (v : pyval) : bool :=
  match v with
  | PDict d =>
      single_line (d !! "domain") && single_line (d !! "path") &&
      single_line (d !! "name") && single_line (d !! "value")
  | _ => true
  end.

(** The lines of a text: the stretches ended by a line feed, and what
    follows the last line feed when that is not empty. *)
Fixpoint lines (s : string) : list string :=
  match s with
  | EmptyString => []
  | String c s' =>
      if Ascii.eqb c "010" then "" :: lines s'
      else match lines s' with
           | [] => [String c EmptyString]
           | l :: ls => String c l :: ls
           end
  end.

(** The texts of a list, one after the other. *)
Definition cat (l : list string) : string := foldr String.append "" l.

Definition encodable_field (enc : ascii → bool) (o : option pyval) : bool :=
  match o with
  | Some (PStr s) => encodable enc s
  | _ => true
  end.

(** The encoding can write the four strings of the record. *)
Definition encodable_record (enc : ascii → bool) (v : pyval) : bool :=
  match v with
  | PDict d =>
      encodable_field enc (d !! "domain") && encodable_field enc (d !! "path") &&
      encodable_field enc (d !! "name") && encodable_field enc (d !! "value")
  | _ => true
  end.

(** [open(output_file, "w")] will go through. *)
Definition can_write (w : world) (p : string) : bool :=
  match files w !! p with
  | Some f => writable f
  | None => true
  end.

(** The same interpreter in the same locale. *)
Definition same_process (w w' : world) : Prop :=
  version_major w' = version_major w ∧
  version_minor w' = version_minor w ∧
  can_encode w' = can_encode w.

(** The lines a run added to the standard output. *)
Definition printed (w w' : world) (out : list string) : Prop :=
  stdout w' = stdout w ++ out.

(** Some line of the summary announces a conversion. *)
Definition reports_converted (out : list string) : bool :=
  existsb (String.prefix "Converted ") out.

Definition summary (n : Z) : list string :=
  ["Converted " +:+ py_str n +:+ " cookies from JSON to Netscape format.";
   "Saved to ../config/cookies.txt.";
   "Conversion complete."].

Definition abort_message : string := "No cookies found in JSON. Aborting.".

Definition upgrade_message : string :=
  "This script requires Python 3. Please upgrade your Python version.".

Section Failures.

Variable json_load : string → result pyval.

(** The run died in [open(input_file)]. *)
Definition not_found_failure (w : world) (o : outcome) : Prop :=
  ∃ e, open_read w input_file = inl e ∧ o = Uncaught e.


End Failures.

(** The run took the [if not cookies] branch. *)
Definition empty_input_abort (w w' : world) (o : outcome) : Prop :=
  o = SystemExit 1 ∧ printed w w' [abort_message].

Section Rejections.

Variable int_of_str : string → option Z.



End Rejections.

(** ** Sample data *)

Definition dquote : string := String "034"%char EmptyString.
Definition backslash : string := String "092"%char EmptyString.

(** The binary64 number nearest to 1700000000.7. *)
Definition float_1700000000_7 : spec_float :=
  S754_finite false 7130316802936013 (-22).

(** The record of the example in the specification. *)
Definition session_cookie : pyval :=
  PDict {[ "domain" := PStr ".example.com"; "name" := PStr "sid";
           "value" := PStr "abc123"; "secure" := PBool true ]}.

Definition session_text : string :=
  "[{" +:+ dquote +:+ "domain" +:+ dquote +:+ ": " +:+
          dquote +:+ ".example.com" +:+ dquote +:+ ", " +:+
          dquote +:+ "name" +:+ dquote +:+ ": " +:+
          dquote +:+ "sid" +:+ dquote +:+ ", " +:+
          dquote +:+ "value" +:+ dquote +:+ ": " +:+
          dquote +:+ "abc123" +:+ dquote +:+ ", " +:+
          dquote +:+ "secure" +:+ dquote +:+ ": true}]".

(** The line the specification expects for it, without its line feed. *)
Definition session_entry : string :=
  ".example.com" +:+ tab +:+ "TRUE" +:+ tab +:+ "/" +:+ tab +:+ "TRUE" +:+ tab +:+
  "2147483647" +:+ tab +:+ "sid" +:+ tab +:+ "abc123".

(** A record that expires at 1700000000.7. *)
Definition dated_cookie : pyval :=
  PDict {[ "name" := PStr "sid"; "expirationDate" := PFloat float_1700000000_7 ]}.

Definition dated_entry : string :=
  tab +:+ "FALSE" +:+ tab +:+ "/" +:+ tab +:+ "FALSE" +:+ tab +:+
  "1700000000" +:+ tab +:+ "sid" +:+ tab.

(** A record whose [secure] is the string "false". *)
Definition lax_cookie : pyval :=
  PDict {[ "domain" := PStr "example.com"; "secure" := PStr "false" ]}.

Definition lax_entry : string :=
  "example.com" +:+ tab +:+ "FALSE" +:+ tab +:+ "/" +:+ tab +:+ "TRUE" +:+ tab +:+
  "2147483647" +:+ tab +:+ tab.

(** The line of a record without any key. *)
Definition bare_entry : string :=
  tab +:+ "FALSE" +:+ tab +:+ "/" +:+ tab +:+ "FALSE" +:+ tab +:+
  "2147483647" +:+ tab +:+ tab.

(** A record whose value runs over two lines. *)
Definition two_line_cookie : pyval :=
  PDict {[ "value" := PStr ("a" +:+ newline +:+ "b") ]}.

Definition two_line_text : string :=
  "[{" +:+ dquote +:+ "value" +:+ dquote +:+ ": " +:+
          dquote +:+ "a" +:+ backslash +:+ "nb" +:+ dquote +:+ "}]".

(** [json.load] on the documents used below, as a table; the examples run
    the script with it.  A text outside the table counts as malformed. *)
Definition sample_documents : list (string * pyval) :=
  [ ("[]", PList []);
    ("{}", PDict ∅);
    ("[{}]", PList [PDict ∅]);
    ("[{}, {}]", PList [PDict ∅; PDict ∅]);
    ("[1]", PList [PInt 1]);
    ("5", PInt 5);
    (session_text, PList [session_cookie]);
    (two_line_text, PList [two_line_cookie]) ].

Fixpoint assoc {A : Type} (k : string) (l : list (string * A)) : option A :=
  match l with
  | [] => None
  | (k', v) :: l' => if String.eqb k k' then Some v else assoc k l'
  end.

Definition sample_json_load (text : string) : result pyval :=
  match assoc text sample_documents with
  | Some v => mret v
  | None => raise JSONDecodeError
  end.

(** [int(s)] on a few strings, as a table. *)
Definition sample_int_of_str (s : string) : option Z :=
  assoc s [("0", 0); ("1700000000", 1700000000); ("-1", -1)].

(** An encoding that writes every character, and one that writes ASCII
    alone, as the C locale has it. *)
Definition every_character : ascii → bool := λ _, true.
Definition ascii_only : ascii → bool := λ _, false.

(** A Python 3.12 process that finds [text] in the input file, read-only,
    and [old] in the output file. *)
Definition sample_world (text old : string) : world :=
  World 3 12 every_character
        {[ input_file := File true false text;
           output_file := File true true old ]} [].

Definition sample_main : world → world * outcome :=
  main sample_json_load sample_int_of_str.

(** A process that finds no file at all. *)
Definition bare_world : world := World 3 12 every_character ∅ [].


(** ** Vocabulary for the fields of a line *)

(** The text holds a tab. *)
Fixpoint has_tab (s : string) : bool :=
  match s with
  | EmptyString => false
  | String c s' => Ascii.eqb c "009" || has_tab s'
  end.

Definition tab_free (o : option pyval) : bool :=
  match o with
  | Some (PStr s) => negb (has_tab s)
  | _ => true
  end.

(** None of the four strings of the record holds a tab. *)
Definition tab_free_record (v : pyval) : bool :=
  match v with
  | PDict d =>
      tab_free (d !! "domain") && tab_free (d !! "path") &&
      tab_free (d !! "name") && tab_free (d !! "value")
  | _ => true
  end.

(** The fields of a line as a reader of the cookie file takes them: the
    stretches between tabs, [body.split(tab)]. *)
Fixpoint fields (s : string) : list string :=
  match s with
  | EmptyString => [EmptyString]
  | String c s' =>
      if Ascii.eqb c "009" then EmptyString :: fields s'
      else match fields s' with
           | [] => [String c EmptyString]
           | f :: fs => String c f :: fs
           end
  end.

(** ** More sample data *)

(** A Python 2.7 process with both files in place. *)
Definition old_world : world :=
  World 2 7 every_character
        {[ input_file := File true false "[{}]";
           output_file := File true true "stale" ]} [].

(** A Python 3.12 process whose output file is read-only. *)
Definition locked_world (text : string) : world :=
  World 3 12 every_character
        {[ input_file := File true false text;
           output_file := File true false "stale" ]} [].


(** A record whose value holds a character beyond ASCII. *)
Definition accented : string := String "233"%char EmptyString.

Definition accented_cookie : pyval := PDict {[ "value" := PStr accented ]}.

Definition accented_text : string :=
  "[{" +:+ dquote +:+ "value" +:+ dquote +:+ ": " +:+
          dquote +:+ accented +:+ dquote +:+ "}]".

(** A record whose flag is the literal NaN, which [json.load] reads though
    JSON has no such number. *)
Definition nan_flag_cookie : pyval := PDict {[ "secure" := PFloat S754_nan ]}.

Definition nan_flag_text : string :=
  "[{" +:+ dquote +:+ "secure" +:+ dquote +:+ ": NaN}]".

(** A record whose date is not a number. *)
Definition nan_cookie : pyval :=
  PDict {[ "domain" := PStr ".example.com";
           "expirationDate" := PFloat S754_nan; "name" := PInt 7 ]}.

(** A record with an integer date. *)
Definition early_cookie : pyval :=
  PDict {[ "name" := PStr "sid"; "expirationDate" := PInt (-86400) ]}.

(** [json.load] on three more documents. *)
Definition mixed_documents : list (string * pyval) :=
  ("[{}, 1]", PList [PDict ∅; PInt 1]) ::
  (accented_text, PList [accented_cookie]) ::
  (nan_flag_text, PList [nan_flag_cookie]) :: sample_documents.

Definition mixed_json_load (text : string) : result pyval :=
  match assoc text mixed_documents with
  | Some v => mret v
  | None => raise JSONDecodeError
  end.

(** * Properties *)

Section Properties.

Variable json_load : string → result pyval.
Variable int_of_str : string → option Z.

(** *** Texts *)

Lemma app_assoc_str (a b c : string) : (a +:+ b) +:+ c = a +:+ b +:+ c.
Proof.
  induction a as [|x a IH]; [done|].
  change (String x ((a +:+ b) +:+ c) = String x (a +:+ b +:+ c)).
  by rewrite IH.
Qed.

Lemma prefix_app (a b : string) : String.prefix a (a +:+ b) = true.
Proof.
  induction a as [|x a IH]; [by destruct b|].
  change (String.prefix (String x a) (String x (a +:+ b)) = true).
  cbn [String.prefix]. by destruct (ascii_dec x x).
Qed.

(** *** The loop body *)

(** What a turn of the loop that reaches [join] has bound. *)
Lemma cookie_locals_inv (cookie : pyval) (r : locals) :
  cookie_locals int_of_str cookie = inr r →
  ∃ (d : gmap string pyval) (s : string) (n : Z),
    cookie = PDict d ∧
    default (PStr "") (d !! "domain") = PStr s ∧
    py_int int_of_str (default (PInt 2147483647) (d !! "expirationDate")) = inr n ∧
    r = Locals (PStr s)
               (if String.prefix "." s then "TRUE" else "FALSE")
               (default (PStr "/") (d !! "path"))
               (if truthy (default (PBool false) (d !! "secure")) then "TRUE" else "FALSE")
               (py_str n)
               (default (PStr "") (d !! "name"))
               (default (PStr "") (d !! "value")).
Proof.
  destruct cookie as [| | | | |l|d]; try discriminate.
  unfold cookie_locals; cbn.
  destruct (default (PStr "") (d !! "domain")) as [| | | |s| |] eqn:Hdom;
    try discriminate.
  cbn.
  destruct (py_int int_of_str (default (PInt 2147483647) (d !! "expirationDate")))
    as [e|n] eqn:Hint; cbn; try discriminate.
  intros [= <-]. by exists d, s, n.
Qed.

(** [join] of seven arguments goes through exactly when all are strings. *)
Lemma py_join_seven (sep : string) (a b c d e f g : pyval) (body : string) :
  py_join sep [a; b; c; d; e; f; g] = inr body →
  ∃ sa sb sc sd se sf sg,
    a = PStr sa ∧ b = PStr sb ∧ c = PStr sc ∧ d = PStr sd ∧ e = PStr se ∧
    f = PStr sf ∧ g = PStr sg ∧
    body = sa +:+ sep +:+ sb +:+ sep +:+ sc +:+ sep +:+ sd +:+ sep +:+
           se +:+ sep +:+ sf +:+ sep +:+ sg.
Proof.
  intros H.
  destruct a as [| | | |sa| |]; try discriminate H.
  destruct b as [| | | |sb| |]; try discriminate H.
  destruct c as [| | | |sc| |]; try discriminate H.
  destruct d as [| | | |sd| |]; try discriminate H.
  destruct e as [| | | |se| |]; try discriminate H.
  destruct f as [| | | |sf| |]; try discriminate H.
  destruct g as [| | | |sg| |]; try discriminate H.
  injection H as <-. by exists sa, sb, sc, sd, se, sf, sg.
Qed.


(** The converse of the two: the line of a dict whose four texts are strings
    and whose date [int] accepts. *)
Lemma cookie_line_dict (d : gmap string pyval) (sd sp sn sv : string) (n : Z) :
  default (PStr "") (d !! "domain") = PStr sd →
  default (PStr "/") (d !! "path") = PStr sp →
  py_int int_of_str (default (PInt 2147483647) (d !! "expirationDate")) = inr n →
  default (PStr "") (d !! "name") = PStr sn →
  default (PStr "") (d !! "value") = PStr sv →
  cookie_locals int_of_str (PDict d) =
    inr (Locals (PStr sd) (if String.prefix "." sd then "TRUE" else "FALSE")
                (PStr sp)
                (if truthy (default (PBool false) (d !! "secure")) then "TRUE" else "FALSE")
                (py_str n) (PStr sn) (PStr sv)) ∧
  cookie_line int_of_str (PDict d) =
    inr (sd +:+ tab +:+ (if String.prefix "." sd then "TRUE" else "FALSE") +:+ tab +:+
         sp +:+ tab +:+
         (if truthy (default (PBool false) (d !! "secure")) then "TRUE" else "FALSE")
         +:+ tab +:+ py_str n +:+ tab +:+ sn +:+ tab +:+ sv +:+ newline).
Proof.
  intros Hd Hp Hn Hname Hv.
  assert (cookie_locals int_of_str (PDict d) =
    inr (Locals (PStr sd) (if String.prefix "." sd then "TRUE" else "FALSE")
                (PStr sp)
                (if truthy (default (PBool false) (d !! "secure")) then "TRUE" else "FALSE")
                (py_str n) (PStr sn) (PStr sv))) as Hloc.
  { unfold cookie_locals; cbn. rewrite Hd; cbn. rewrite Hn; cbn.
    by rewrite Hp, Hname, Hv. }
  split; [done|].
  unfold cookie_line. rewrite Hloc. cbn.
  by rewrite !app_assoc_str.
Qed.

Lemma cookie_line_inv (cookie : pyval) (line : string) :
  cookie_line int_of_str cookie = inr line →
  ∃ (d : gmap string pyval) (sd sp sn sv : string) (n : Z),
    cookie = PDict d ∧
    default (PStr "") (d !! "domain") = PStr sd ∧
    default (PStr "/") (d !! "path") = PStr sp ∧
    py_int int_of_str (default (PInt 2147483647) (d !! "expirationDate")) = inr n ∧
    default (PStr "") (d !! "name") = PStr sn ∧
    default (PStr "") (d !! "value") = PStr sv.
Proof.
  unfold cookie_line.
  destruct (cookie_locals int_of_str cookie) as [e|r] eqn:Hloc; [discriminate|].
  apply cookie_locals_inv in Hloc as (d & sd & n & -> & Hd & Hn & ->).
  cbn -[py_join].
  destruct (py_join tab _) as [e|body] eqn:Hjoin; [discriminate|].
  apply py_join_seven in Hjoin
    as (sa & sb & sc & sd' & se & sf & sg & _ & _ & Hp & _ & _ & Hname & Hv & _).
  intros _. by exists d, sd, sc, sf, sg, n.
Qed.


(** *** Records of the data model convert *)

Lemma str_or_missing_default (o : option pyval) (dflt : string) :
  str_or_missing o = true → ∃ s, default (PStr dflt) o = PStr s.
Proof. destruct o as [[]|]; try discriminate; cbn; eauto. Qed.

Lemma number_or_missing_int (o : option pyval) (dflt : Z) :
  number_or_missing o = true →
  ∃ n, py_int int_of_str (default (PInt dflt) o) = inr n.
Proof.
  destruct o as [[| | |[]| | |]|]; try discriminate; cbn; eauto.
Qed.

Lemma cookie_record_converts (cookie : pyval) :
  is_cookie_record cookie = true →
  ∃ line, cookie_line int_of_str cookie = inr line.
Proof.
  destruct cookie as [| | | | | |d]; try discriminate.
  intros H. cbn in H. rewrite !andb_true_iff in H.
  destruct H as [[[[[Hd Hp] _] Hn] Hname] Hv].
  apply (str_or_missing_default _ "") in Hd as [sd Hd].
  apply (str_or_missing_default _ "/") in Hp as [sp Hp].
  apply (number_or_missing_int _ 2147483647) in Hn as [n Hn].
  apply (str_or_missing_default _ "") in Hname as [sn Hname].
  apply (str_or_missing_default _ "") in Hv as [sv Hv].
  destruct (cookie_line_dict d sd sp sn sv n) as [_ ->]; eauto.
Qed.


(** Everything known about a turn of the loop that wrote a line. *)
Lemma cookie_line_spec (cookie : pyval) (line : string) :
  cookie_line int_of_str cookie = inr line →
  ∃ (d : gmap string pyval) (r : locals) (sd sp sn sv : string) (n : Z),
    cookie = PDict d ∧
    cookie_locals int_of_str cookie = inr r ∧
    default (PStr "") (d !! "domain") = PStr sd ∧
    py_int int_of_str (default (PInt 2147483647) (d !! "expirationDate")) = inr n ∧
    r = Locals (PStr sd) (if String.prefix "." sd then "TRUE" else "FALSE")
               (PStr sp)
               (if truthy (default (PBool false) (d !! "secure")) then "TRUE" else "FALSE")
               (py_str n) (PStr sn) (PStr sv) ∧
    default (PStr "/") (d !! "path") = PStr sp ∧
    default (PStr "") (d !! "name") = PStr sn ∧
    default (PStr "") (d !! "value") = PStr sv ∧
    line = sd +:+ tab +:+ include_subdomain r +:+ tab +:+ sp +:+ tab +:+
           secure r +:+ tab +:+ expires r +:+ tab +:+ sn +:+ tab +:+ sv +:+ newline.
Proof.
  intros Hline.
  destruct (cookie_line_inv _ _ Hline)
    as (d & sd & sp & sn & sv & n & -> & Hd & Hp & Hn & Hname & Hv).
  destruct (cookie_line_dict d sd sp sn sv n Hd Hp Hn Hname Hv) as [Hloc Hl].
  rewrite Hl in Hline. injection Hline as <-.
  eexists d, _, sd, sp, sn, sv, n. by repeat split.
Qed.

Lemma prefix_dot (s : string) :
  String.prefix "." s = true ↔ ∃ tail, s = "." +:+ tail.
Proof.
  destruct s as [|c s].
  - split; [discriminate|]. by intros [tail ?].
  - change (String.prefix "." (String c s))
      with (if ascii_dec "." c then String.prefix "" s else false).
    destruct (ascii_dec "." c) as [<-|Hc].
    + split; [intros _; by exists s|]. intros _. by destruct s.
    + split; [discriminate|]. intros [tail [= ? ?]]. by destruct Hc.
Qed.

(** [int(f)] of a finite float is the integer part of [m * 2^e], signed. *)
Lemma float_trunc_finite (s : bool) (m : positive) (e : Z) :
  ∃ a : Z,
    float_trunc (S754_finite s m e) = inr (if s then - a else a) ∧
    0 ≤ a ∧
    (0 ≤ e → a = Z.pos m * 2 ^ e) ∧
    (e < 0 → a * 2 ^ (- e) ≤ Z.pos m < (a + 1) * 2 ^ (- e)).
Proof.
  exists (Z.shiftl (Z.pos m) e). split; [done|].
  split; [by apply Z.shiftl_nonneg|].
  split; intros He.
  - by apply Z.shiftl_mul_pow2.
  - rewrite Z.shiftl_div_pow2 by lia.
    assert (0 < 2 ^ (- e)) by (apply Z.pow_pos_nonneg; lia).
    split.
    + rewrite Z.mul_comm. apply Z.mul_div_le. lia.
    + rewrite Z.mul_comm. apply Z.mul_succ_div_gt. lia.
Qed.

(** [float_1700000000_7] is a binary64 number (53 bits of mantissa, exponent
    in range), and 1700000000.7 lies within half a unit in its last place:
    [|m * 2^-22 - 1700000000.7| <= 2^-23], both sides times ten. *)
Lemma float_1700000000_7_nearest :
  ∃ m : positive,
    float_1700000000_7 = S754_finite false m (-22) ∧
    bounded 53 1024 m (-22) = true ∧
    Z.abs (10 * Z.pos m - 17000000007 * 2 ^ 22) ≤ 5.
Proof. exists 7130316802936013%positive. by vm_compute. Qed.


(** *** The fields of a line *)

(** C1.  For every cookie record, the includeSubdomains field of its output
    line is "TRUE" if and only if the domain of the record, the empty string
    when the key is missing, starts with "."; otherwise it is "FALSE", so that
    an empty domain yields "FALSE". *)
Theorem include_subdomains_iff_leading_dot (cookie : pyval) (line : string) :
  cookie_line int_of_str cookie = inr line →
  ∃ (r : locals) (dom rest : string),
    cookie_locals int_of_str cookie = inr r ∧
    py_get cookie "domain" (PStr "") = inr (PStr dom) ∧
    line = dom +:+ tab +:+ include_subdomain r +:+ tab +:+ rest ∧
    (include_subdomain r = "TRUE" ↔ ∃ tail, dom = "." +:+ tail) ∧
    (include_subdomain r = "FALSE" ↔ ¬ ∃ tail, dom = "." +:+ tail) ∧
    (dom = "" → include_subdomain r = "FALSE").
Proof.
  intros Hline.
  destruct (cookie_line_spec _ _ Hline)
    as (d & r & sd & sp & sn & sv & n & -> & Hloc & Hd & _ & Hr & _ & _ & _ & ->).
  exists r, sd. eexists. split; [done|]. split; [by cbn; rewrite Hd|].
  split; [done|].
  subst r; cbn. rewrite <- prefix_dot.
  destruct (String.prefix "." sd) eqn:Hdot.
  - repeat split; try done; intros ->; discriminate Hdot.
  - repeat split; try done; by intros ?%not_true_is_false.
Qed.

(** C3.  For every cookie record, a missing expirationDate key yields the
    expires field "2147483647"; a float yields its truncation to an integer,
    and 1700000000.7 yields "1700000000". *)
Theorem expires_default_and_truncation
    (d : gmap string pyval) (line : string) :
  cookie_line int_of_str (PDict d) = inr line →
  ∃ (r : locals) (before after : string),
    cookie_locals int_of_str (PDict d) = inr r ∧
    line = before +:+ tab +:+ expires r +:+ tab +:+ after ∧
    (d !! "expirationDate" = None → expires r = "2147483647") ∧
    (∀ s m e, d !! "expirationDate" = Some (PFloat (S754_finite s m e)) →
       ∃ a : Z, expires r = py_str (if s then - a else a) ∧ 0 ≤ a ∧
                (0 ≤ e → a = Z.pos m * 2 ^ e) ∧
                (e < 0 → a * 2 ^ (- e) ≤ Z.pos m < (a + 1) * 2 ^ (- e))) ∧
    (d !! "expirationDate" = Some (PFloat float_1700000000_7) →
       expires r = "1700000000").
Proof.
  intros Hline.
  destruct (cookie_line_spec _ _ Hline)
    as (d' & r & sd & sp & sn & sv & n & [= <-] & Hloc & _ & Hn & Hr & _ & _ & _ & ->).
  exists r.
  exists (sd +:+ tab +:+ include_subdomain r +:+ tab +:+ sp +:+ tab +:+ secure r).
  exists (sn +:+ tab +:+ sv +:+ newline).
  split; [done|]. split; [by rewrite !app_assoc_str|].
  subst r; cbn. repeat split.
  - intros Hnone. rewrite Hnone in Hn. by injection Hn as <-.
  - intros s m e Hsome. rewrite Hsome in Hn. cbn in Hn.
    destruct (float_trunc_finite s m e) as (a & Ha & Hrest).
    exists a. split; [|done]. cbn in Ha. congruence.
  - intros Hsome. rewrite Hsome in Hn. by injection Hn as <-.
Qed.

(** C4.  For every cookie record, a missing path key yields the path field
    "/" and a missing secure key yields the secure field "FALSE". *)
Theorem path_and_secure_defaults (d : gmap string pyval) (line : string) :
  cookie_line int_of_str (PDict d) = inr line →
  ∃ (r : locals) (dom p after : string),
    cookie_locals int_of_str (PDict d) = inr r ∧
    path r = PStr p ∧
    line = dom +:+ tab +:+ include_subdomain r +:+ tab +:+ p +:+ tab +:+
           secure r +:+ tab +:+ after ∧
    (d !! "path" = None → p = "/") ∧
    (d !! "secure" = None → secure r = "FALSE").
Proof.
  intros Hline.
  destruct (cookie_line_spec _ _ Hline)
    as (d' & r & sd & sp & sn & sv & n & [= <-] & Hloc & _ & _ & Hr & Hp & _ & _ & ->).
  exists r, sd, sp. eexists. split; [done|].
  subst r; cbn. repeat split.
  - intros Hnone. rewrite Hnone in Hp. by injection Hp as <-.
  - by intros ->.
Qed.

(** C9.  The secure field follows the truth value of whatever the record
    holds under [secure]: "TRUE" when it is truthy, the string "false" and
    non-zero numbers included, "FALSE" when it is falsy: false, 0, the empty
    string, null. *)
Theorem secure_by_truthiness
    (d : gmap string pyval) (v : pyval) (line : string) :
  d !! "secure" = Some v →
  cookie_line int_of_str (PDict d) = inr line →
  ∃ (r : locals) (before after : string),
    cookie_locals int_of_str (PDict d) = inr r ∧
    line = before +:+ tab +:+ secure r +:+ tab +:+ after ∧
    secure r = (if truthy v then "TRUE" else "FALSE") ∧
    (v = PStr "false" → secure r = "TRUE") ∧
    (∀ z, z ≠ 0 → v = PInt z → secure r = "TRUE") ∧
    (∀ s m e, v = PFloat (S754_finite s m e) → secure r = "TRUE") ∧
    (v = PBool true → secure r = "TRUE") ∧
    (v = PBool false ∨ v = PInt 0 ∨ v = PStr "" ∨ v = PNone →
       secure r = "FALSE").
Proof.
  intros Hsec Hline.
  destruct (cookie_line_spec _ _ Hline)
    as (d' & r & sd & sp & sn & sv & n & [= <-] & Hloc & _ & _ & Hr & _ & _ & _ & ->).
  exists r. exists (sd +:+ tab +:+ include_subdomain r +:+ tab +:+ sp).
  eexists. split; [done|]. split; [by rewrite !app_assoc_str|].
  subst r; cbn. rewrite Hsec; cbn.
  repeat split.
  - by intros ->.
  - intros z Hz ->. cbn. by destruct (Z.eqb_spec z 0).
  - by intros s m e ->.
  - by intros ->.
  - by intros [->|[->|[->| ->]]].
Qed.


(** *** The loop *)

Lemma app_empty_r (a : string) : a +:+ "" = a.
Proof.
  induction a as [|x a IH]; [done|].
  change (String x (a +:+ "") = String x a). by rewrite IH.
Qed.

(** *** Encoding *)

Lemma encodable_app (enc : ascii → bool) (a b : string) :
  encodable enc (a +:+ b) = encodable enc a && encodable enc b.
Proof.
  induction a as [|x a IH]; [done|].
  change (encodable enc (String x (a +:+ b)) =
          encodable enc (String x a) && encodable enc b).
  cbn. by rewrite IH, andb_assoc.
Qed.

(** Decimal digits are ASCII. *)
Lemma encodable_pretty_N_go (enc : ascii → bool) (x : N) (s : string) :
  encodable enc (pretty_N_go x s) = encodable enc s.
Proof.
  revert s. induction (N.lt_wf_0 x) as [x _ IH]; intros s.
  destruct (decide (0 < x)%N) as [Hx|Hx].
  - rewrite pretty_N_go_step by done.
    rewrite IH by (by apply N.div_lt).
    cbn. unfold pretty_N_char. by repeat case_match.
  - assert (x = 0%N) as -> by lia. done.
Qed.

Lemma encodable_py_str (enc : ascii → bool) (n : Z) :
  encodable enc (py_str n) = true.
Proof.
  assert (∀ p : positive, encodable enc (pretty p) = true) as Hpos.
  { intros p. unfold pretty, pretty_positive, pretty, pretty_N.
    case_decide; [done|]. by rewrite encodable_pretty_N_go. }
  destruct n as [|p|p]; [done|apply Hpos|].
  unfold py_str, pretty, pretty_Z. rewrite encodable_app. apply Hpos.
Qed.

(** Every encoding writes the header. *)
Lemma write_header (enc : ascii → bool) :
  py_write enc EmptyString header = inr header.
Proof. done. Qed.

Lemma encodable_field_default
    (enc : ascii → bool) (o : option pyval) (dflt s : string) :
  encodable enc dflt = true →
  default (PStr dflt) o = PStr s →
  encodable enc s = encodable_field enc o.
Proof.
  destruct o as [v|]; cbn.
  - by intros _ ->.
  - by intros ? [= <-].
Qed.

(** What the script adds to a line is ASCII: the encoding can write the
    line exactly when it can write the four strings of the record. *)
Lemma line_encodable (enc : ascii → bool) (cookie : pyval) (line : string) :
  cookie_line int_of_str cookie = inr line →
  encodable enc line = encodable_record enc cookie.
Proof.
  intros Hline.
  destruct (cookie_line_spec _ _ Hline)
    as (d & r & sd & sp & sn & sv & n & -> & _ & Hd & _ & Hr & Hp & Hname & Hv & ->).
  clear Hline.
  apply (encodable_field_default enc) in Hd; [|done].
  apply (encodable_field_default enc) in Hp; [|done].
  apply (encodable_field_default enc) in Hname; [|done].
  apply (encodable_field_default enc) in Hv; [|done].
  subst r; cbn. rewrite !encodable_app, encodable_py_str.
  rewrite Hd, Hp, Hname, Hv.
  assert (encodable enc tab = true) as -> by done.
  assert (encodable enc newline = true) as -> by done.
  assert (encodable enc (if String.prefix "." sd then "TRUE" else "FALSE")
          = true) as -> by (by destruct (String.prefix "." sd)).
  assert (encodable enc
            (if truthy (default (PBool false) (d !! "secure"))
             then "TRUE" else "FALSE") = true) as -> by (by destruct (truthy _)).
  by destruct (encodable_field enc (d !! "domain")),
             (encodable_field enc (d !! "path")),
             (encodable_field enc (d !! "name")),
             (encodable_field enc (d !! "value")).
Qed.

(** *** The loop *)

(** A turn of the loop goes through when the line is made and the encoding
    can write it. *)
Lemma write_line_inr (enc : ascii → bool) (cookie : pyval) (line : string) :
  write_line int_of_str enc cookie = inr line ↔
  cookie_line int_of_str cookie = inr line ∧
  encodable_record enc cookie = true.
Proof.
  unfold write_line.
  destruct (cookie_line int_of_str cookie) as [e|line'] eqn:Hline; cbn.
  - split; [discriminate|]. by intros [? _].
  - rewrite <- (line_encodable enc cookie line' Hline).
    destruct (encodable enc line'); split.
    + by intros [= <-].
    + by intros [[= <-] _].
    + discriminate.
    + by intros [_ ?].
Qed.

(** A turn of the loop fails with the exception of the line, or in
    [f.write] when the line is made and cannot be written. *)
Lemma write_line_inl (enc : ascii → bool) (cookie : pyval) (e : exn) :
  write_line int_of_str enc cookie = inl e ↔
  cookie_line int_of_str cookie = inl e ∨
  (e = UnicodeEncodeError ∧ encodable_record enc cookie = false ∧
   ∃ line, cookie_line int_of_str cookie = inr line).
Proof.
  unfold write_line.
  destruct (cookie_line int_of_str cookie) as [e'|line'] eqn:Hline; cbn.
  - split; [by left|]. by intros [?|(_ & _ & ? & ?)].
  - rewrite <- (line_encodable enc cookie line' Hline).
    destruct (encodable enc line'); split.
    + discriminate.
    + by intros [?|(_ & ? & _)].
    + intros [= <-]. right. eauto.
    + by intros [?|(-> & _ & _)].
Qed.

(** When every turn goes through, the loop appends the lines in order. *)
Lemma write_cookies_ok
    (enc : ascii → bool) (f : string) (cookies : list pyval)
    (out : list string) :
  Forall2 (λ cookie line, write_line int_of_str enc cookie = inr line)
          cookies out →
  write_cookies int_of_str enc f cookies = (f +:+ cat out, inr tt).
Proof.
  intros H. revert f.
  induction H as [|cookie line cookies out Hline _ IH]; intros f; cbn.
  - by rewrite app_empty_r.
  - rewrite Hline, IH. by rewrite app_assoc_str.
Qed.

(** The loop up to the first turn that fails. *)
Lemma write_cookies_partial
    (enc : ascii → bool) (f : string) (good rest : list pyval) (bad : pyval)
    (out : list string) (e : exn) :
  Forall2 (λ cookie line, write_line int_of_str enc cookie = inr line)
          good out →
  write_line int_of_str enc bad = inl e →
  write_cookies int_of_str enc f (good ++ bad :: rest) =
    (f +:+ cat out, inl e).
Proof.
  intros Hgood Hbad. revert f.
  induction Hgood as [|cookie line good out Hline _ IH]; intros f; cbn.
  - by rewrite Hbad, app_empty_r.
  - rewrite Hline, IH. by rewrite app_assoc_str.
Qed.

(** Every list is of one kind or the other. *)
Lemma turns_split (enc : ascii → bool) (cookies : list pyval) :
  (∃ out, Forall2 (λ cookie line, write_line int_of_str enc cookie = inr line)
                  cookies out) ∨
  (∃ good rest bad out e,
     cookies = good ++ bad :: rest ∧
     Forall2 (λ cookie line, write_line int_of_str enc cookie = inr line)
             good out ∧
     write_line int_of_str enc bad = inl e).
Proof.
  induction cookies as [|cookie cookies IH]; [left; by exists []|].
  destruct (write_line int_of_str enc cookie) as [e|line] eqn:Hline.
  { right. exists [], cookies, cookie, [], e. by split_and!. }
  destruct IH as [[out Hout]|(good & rest & bad & out & e & -> & Hgood & Hbad)].
  - left. exists (line :: out). by constructor.
  - right. exists (cookie :: good), rest, bad, (line :: out), e.
    split_and!; [done| |done]. by constructor.
Qed.

Lemma records_convert (enc : ascii → bool) (cookies : list pyval) :
  Forall (λ cookie, is_cookie_record cookie = true) cookies →
  Forall (λ cookie, encodable_record enc cookie = true) cookies →
  ∃ out, Forall2 (λ cookie line, write_line int_of_str enc cookie = inr line)
                 cookies out.
Proof.
  induction 1 as [|cookie cookies Hrec _ IH]; [by exists []|].
  intros [Henc Hencs]%Forall_cons. destruct (IH Hencs) as [out Hout].
  destruct (cookie_record_converts _ Hrec) as [line Hline].
  exists (line :: out). constructor; [|done]. by apply write_line_inr.
Qed.

(** *** Lines *)

Lemma has_newline_app (a b : string) :
  has_newline (a +:+ b) = has_newline a || has_newline b.
Proof.
  induction a as [|x a IH]; [done|].
  change (has_newline (String x (a +:+ b)) =
          has_newline (String x a) || has_newline b).
  cbn. by rewrite IH, orb_assoc.
Qed.

Lemma lines_cons (body rest : string) :
  has_newline body = false →
  lines (body +:+ newline +:+ rest) = body :: lines rest.
Proof.
  induction body as [|x body IH]; [done|].
  change (String x body +:+ newline +:+ rest)
    with (String x (body +:+ newline +:+ rest)).
  cbn. intros [Hx Hbody]%orb_false_elim. by rewrite Hx, IH.
Qed.

Lemma lines_header (rest : string) :
  lines (header +:+ rest) = "# Netscape HTTP Cookie File" :: "" :: lines rest.
Proof.
  unfold header. rewrite !app_assoc_str.
  by rewrite lines_cons.
Qed.

Lemma lines_cat (bodies : list string) :
  Forall (λ body, has_newline body = false) bodies →
  lines (cat ((λ body, body +:+ newline) <$> bodies)) = bodies.
Proof.
  induction 1 as [|body bodies Hbody _ IH]; [done|].
  change (lines ((body +:+ newline) +:+
                 cat ((λ body, body +:+ newline) <$> bodies)) = body :: bodies).
  rewrite app_assoc_str, lines_cons by done. by rewrite IH.
Qed.

(** Decimal digits hold no line feed. *)
Lemma has_newline_pretty_N_go (x : N) (s : string) :
  has_newline (pretty_N_go x s) = has_newline s.
Proof.
  revert s. induction (N.lt_wf_0 x) as [x _ IH]; intros s.
  destruct (decide (0 < x)%N) as [Hx|Hx].
  - rewrite pretty_N_go_step by done.
    rewrite IH by (by apply N.div_lt).
    cbn. unfold pretty_N_char. by repeat case_match.
  - assert (x = 0%N) as -> by lia. done.
Qed.

Lemma has_newline_py_str (n : Z) : has_newline (py_str n) = false.
Proof.
  assert (∀ p : positive, has_newline (pretty p) = false) as Hpos.
  { intros p. unfold pretty, pretty_positive, pretty, pretty_N.
    case_decide; [done|]. by rewrite has_newline_pretty_N_go. }
  destruct n as [|p|p]; [done|apply Hpos|].
  unfold py_str, pretty, pretty_Z. rewrite has_newline_app. apply Hpos.
Qed.

Lemma single_line_default (o : option pyval) (dflt s : string) :
  single_line o = true → has_newline dflt = false →
  default (PStr dflt) o = PStr s → has_newline s = false.
Proof.
  destruct o as [v|]; cbn.
  - intros H _ ->. by apply negb_true_iff.
  - by intros _ ? [= <-].
Qed.

(** A line is a body and a line feed; the body of a record without line
    feeds has none. *)
Lemma cookie_line_body (cookie : pyval) (line : string) :
  cookie_line int_of_str cookie = inr line →
  ∃ body, line = body +:+ newline ∧
          (single_line_record cookie = true → has_newline body = false).
Proof.
  intros Hline.
  destruct (cookie_line_spec _ _ Hline)
    as (d & r & sd & sp & sn & sv & n & -> & _ & Hd & _ & Hr & Hp & Hname & Hv & ->).
  exists (sd +:+ tab +:+ include_subdomain r +:+ tab +:+ sp +:+ tab +:+
          secure r +:+ tab +:+ expires r +:+ tab +:+ sn +:+ tab +:+ sv).
  split; [by rewrite !app_assoc_str|].
  intros Hone. cbn in Hone. rewrite !andb_true_iff in Hone.
  destruct Hone as [[[Hd1 Hp1] Hn1] Hv1].
  apply (single_line_default _ "" sd) in Hd1; [|done..].
  apply (single_line_default _ "/" sp) in Hp1; [|done..].
  apply (single_line_default _ "" sn) in Hn1; [|done..].
  apply (single_line_default _ "" sv) in Hv1; [|done..].
  subst r; cbn. rewrite !has_newline_app, has_newline_py_str.
  rewrite Hd1, Hp1, Hn1, Hv1. cbn.
  by destruct (String.prefix "." sd), (truthy _).
Qed.

Lemma lines_bodies (cookies : list pyval) (out : list string) :
  Forall2 (λ cookie line, cookie_line int_of_str cookie = inr line) cookies out →
  ∃ entries,
    out = (λ body, body +:+ newline) <$> entries ∧
    (Forall (λ cookie, single_line_record cookie = true) cookies →
     Forall (λ body, has_newline body = false) entries).
Proof.
  induction 1 as [|cookie line cookies out Hline _ (entries & -> & IH)].
  - by exists [].
  - destruct (cookie_line_body _ _ Hline) as (body & -> & Hbody).
    exists (body :: entries). split; [done|].
    intros [Hc Hcs]%Forall_cons. constructor; auto.
Qed.

(** *** The run *)

Lemma open_write_ok (w : world) (p : string) :
  can_write w p = true →
  ∃ f, data f = "" ∧ writable f = true ∧
       open_write w p =
         inr (World (version_major w) (version_minor w) (can_encode w)
                    (<[p := f]> (files w)) (stdout w)).
Proof.
  unfold can_write, open_write.
  destruct (files w !! p) as [f|]; [intros ->|intros _];
    (eexists; split_and!; [| |reflexivity]; done).
Qed.

Lemma open_write_denied (w : world) (p : string) :
  can_write w p = false → open_write w p = inl PermissionError.
Proof.
  unfold can_write, open_write.
  destruct (files w !! p) as [f|]; [by intros ->|done].
Qed.

(** The three ways the summary can go; which one depends on the value
    alone. *)
Lemma report_cases (cookies : pyval) (w : world) :
  (truthy cookies = false ∧
   report cookies w = (print abort_message w, SystemExit 1)) ∨
  (truthy cookies = true ∧ ∃ e, py_len cookies = inl e ∧
   report cookies w = (w, Uncaught e)) ∨
  (truthy cookies = true ∧ ∃ n, py_len cookies = inr n ∧
   report cookies w =
     (World (version_major w) (version_minor w) (can_encode w)
            (files w) (stdout w ++ summary n), Finished)).
Proof.
  unfold report. destruct (truthy cookies); cbn; [|by left].
  right. destruct (py_len cookies) as [e|n]; [left|right]; split; eauto.
  eexists; split; [done|]. unfold print; cbn.
  by rewrite <- !(assoc_L (++)).
Qed.

(** With the output file open, the script writes what the loop wrote and
    goes on to the summary, or dies of the exception of the loop. *)
Lemma convert_writable (cookies : pyval) (w : world) :
  can_write w output_file = true →
  ∃ w1,
    same_process w w1 ∧
    stdout w1 = stdout w ∧
    file_data w1 output_file =
      Some (write_output int_of_str (can_encode w) cookies).1 ∧
    can_write w1 output_file = true ∧
    (∀ q, q ≠ output_file → files w1 !! q = files w !! q) ∧
    convert int_of_str cookies w =
      match (write_output int_of_str (can_encode w) cookies).2 with
      | inl e => (w1, Uncaught e)
      | inr _ => report cookies w1
      end.
Proof.
  intros Hw. destruct (open_write_ok _ _ Hw) as (f & Hf & Hwf & Hopen).
  unfold convert. rewrite Hopen. cbn [can_encode].
  destruct (write_output int_of_str (can_encode w) cookies) as [written r].
  eexists. split_and!; [| | | | |reflexivity]; cbn; try done.
  - unfold file_data; cbn. by rewrite lookup_alter_eq, lookup_insert_eq.
  - unfold can_write; cbn. by rewrite lookup_alter_eq, lookup_insert_eq.
  - intros q Hq. by rewrite lookup_alter_ne, lookup_insert_ne.
Qed.

Lemma convert_denied (cookies : pyval) (w : world) :
  can_write w output_file = false →
  convert int_of_str cookies w = (w, Uncaught PermissionError).
Proof. intros Hw. unfold convert. by rewrite open_write_denied. Qed.

(** An interpreter that takes f-strings passes the check of line 14. *)
Lemma accepts_f_strings_passes (w : world) :
  accepts_f_strings w = true → (version_major w <? 3) = false.
Proof.
  unfold accepts_f_strings. intros H. apply Z.ltb_ge.
  apply orb_true_iff in H as [H|[H _]%andb_true_iff]; lia.
Qed.

(** Lines 37 and 38: an interpreter without f-strings runs nothing. *)
Lemma old_interpreter_refuses (w : world) :
  accepts_f_strings w = false →
  main json_load int_of_str w = (w, Uncaught SyntaxError).
Proof. intros Hv. unfold main. by rewrite Hv. Qed.

Lemma main_loaded (w : world) (cookies : pyval) :
  accepts_f_strings w = true → load json_load w = inr cookies →
  main json_load int_of_str w = convert int_of_str cookies w.
Proof.
  intros Hv Hload. unfold main.
  by rewrite Hv, (accepts_f_strings_passes _ Hv), Hload.
Qed.

Lemma main_load_failed (w : world) (e : exn) :
  accepts_f_strings w = true → load json_load w = inl e →
  main json_load int_of_str w = (w, Uncaught e).
Proof.
  intros Hv Hload. unfold main.
  by rewrite Hv, (accepts_f_strings_passes _ Hv), Hload.
Qed.

Lemma summary_reports_converted (n : Z) : reports_converted (summary n) = true.
Proof.
  unfold reports_converted, summary. cbn [existsb]. by rewrite prefix_app.
Qed.

(** The summary adds lines and an outcome that depend on the value alone. *)
Lemma report_frame (cookies : pyval) :
  ∃ out o, ∀ w,
    report cookies w =
      (World (version_major w) (version_minor w) (can_encode w)
             (files w) (stdout w ++ out), o).
Proof.
  unfold report. destruct (truthy cookies); cbn.
  - destruct (py_len cookies) as [e|n].
    + exists [], (Uncaught e). intros [v m enc fs so]; cbn.
      by rewrite app_nil_r.
    + eexists _, Finished. intros w. unfold print; cbn.
      by rewrite <- !(assoc_L (++)).
  - by exists [abort_message], (SystemExit 1).
Qed.

(** So does the whole conversion, once the output file can be opened: what
    is written, what is printed and how the run ends are functions of the
    parsed value and of the encoding. *)
Lemma convert_frame (enc : ascii → bool) (cookies : pyval) :
  ∃ out o, ∀ w,
    can_encode w = enc →
    can_write w output_file = true →
    ∃ w',
      convert int_of_str cookies w = (w', o) ∧
      printed w w' out ∧
      file_data w' output_file = Some (write_output int_of_str enc cookies).1 ∧
      same_process w w' ∧
      can_write w' output_file = true ∧
      (∀ q, q ≠ output_file → files w' !! q = files w !! q).
Proof.
  destruct (report_frame cookies) as (out & o & Hreport).
  destruct (write_output int_of_str enc cookies).2 as [e|[]] eqn:Hloop.
  - exists [], (Uncaught e). intros w <- Hw.
    destruct (convert_writable cookies w Hw)
      as (w1 & Hver & Hstd & Hdata & Hcan & Hframe & ->).
    rewrite Hloop. exists w1. split_and!; try done.
    unfold printed. by rewrite Hstd, app_nil_r.
  - exists out, o. intros w <- Hw.
    destruct (convert_writable cookies w Hw)
      as (w1 & Hver & Hstd & Hdata & Hcan & Hframe & ->).
    rewrite Hloop, Hreport. eexists. split_and!; try done.
    unfold printed; cbn. by rewrite Hstd.
Qed.



(** What the [with] block writes for an iterable: the header, then the
    loop. *)
Lemma write_output_items
    (enc : ascii → bool) (cookies : pyval) (items : list pyval) :
  py_iter cookies = inr items →
  write_output int_of_str enc cookies =
    write_cookies int_of_str enc header items.
Proof. intros Hiter. unfold write_output. by rewrite write_header, Hiter. Qed.

(** A run over a non-empty list whose turns all go through. *)
Lemma convert_list_ok (w : world) (cookies : list pyval) (out : list string) :
  can_write w output_file = true → cookies ≠ [] →
  Forall2 (λ cookie line,
             write_line int_of_str (can_encode w) cookie = inr line)
          cookies out →
  ∃ w',
    convert int_of_str (PList cookies) w = (w', Finished) ∧
    file_data w' output_file = Some (header +:+ cat out) ∧
    printed w w' (summary (Z.of_nat (length cookies))) ∧
    (∀ q, q ≠ output_file → files w' !! q = files w !! q).
Proof.
  intros Hw Hne Hout.
  destruct (convert_writable (PList cookies) w Hw)
    as (w1 & Hver & Hstd & Hdata & _ & Hframe & ->).
  rewrite (write_output_items _ (PList cookies) cookies eq_refl) in *.
  rewrite (write_cookies_ok _ _ _ _ Hout) in *. cbn in *.
  destruct (report_cases (PList cookies) w1)
    as [[Hf _]|[(_ & e & He & _)|(_ & n & [= <-] & ->)]].
  - by destruct cookies.
  - discriminate He.
  - eexists. split; [done|]. split; [done|]. split; [|done].
    unfold printed; cbn. by rewrite Hstd.
Qed.

(** A run over a list one of whose turns fails. *)
Lemma convert_list_dies
    (w : world) (good rest : list pyval) (bad : pyval)
    (out : list string) (e : exn) :
  can_write w output_file = true →
  Forall2 (λ cookie line,
             write_line int_of_str (can_encode w) cookie = inr line)
          good out →
  write_line int_of_str (can_encode w) bad = inl e →
  ∃ w',
    convert int_of_str (PList (good ++ bad :: rest)) w = (w', Uncaught e) ∧
    file_data w' output_file = Some (header +:+ cat out) ∧
    stdout w' = stdout w.
Proof.
  intros Hw Hgood Hbad.
  destruct (convert_writable (PList (good ++ bad :: rest)) w Hw)
    as (w1 & _ & Hstd & Hdata & _ & _ & ->).
  rewrite (write_output_items _ (PList (good ++ bad :: rest)) _ eq_refl) in *.
  rewrite (write_cookies_partial _ _ _ _ _ _ _ Hgood Hbad) in *.
  by exists w1.
Qed.




(** *** The output file *)

(** The lines of turns that went through are the lines of the records. *)
Lemma turns_lines
    (enc : ascii → bool) (cookies : list pyval) (out : list string) :
  Forall2 (λ cookie line, write_line int_of_str enc cookie = inr line)
          cookies out →
  Forall2 (λ cookie line, cookie_line int_of_str cookie = inr line)
          cookies out.
Proof.
  intros Hout. eapply Forall2_impl; [exact Hout|].
  intros cookie line H. apply write_line_inr in H. by destruct H.
Qed.

(** C2, as the script has it.  For every non-empty array of cookie records,
    each with a date that is missing, an integer or a finite float and with
    strings that the encoding of the output file can write, the run ends
    normally and leaves in the output file, whatever it held before, the
    two-line header followed by one tab-joined entry per record, each ended
    by a line feed, in the order of the input.  The strings of a record are
    written as they are, so the file has [len(input) + 2] lines when no
    domain, path, name or value holds a line feed. *)
Theorem output_header_then_one_entry_per_record
    (w : world) (cookies : list pyval) :
  accepts_f_strings w = true →
  load json_load w = inr (PList cookies) →
  cookies ≠ [] →
  Forall (λ cookie, is_cookie_record cookie = true) cookies →
  Forall (λ cookie, encodable_record (can_encode w) cookie = true) cookies →
  can_write w output_file = true →
  ∃ (w' : world) (entries : list string) (text : string),
    main json_load int_of_str w = (w', Finished) ∧
    file_data w' output_file = Some text ∧
    Forall2 (λ cookie entry,
               cookie_line int_of_str cookie = inr (entry +:+ newline))
            cookies entries ∧
    text = header +:+ cat ((λ entry, entry +:+ newline) <$> entries) ∧
    (Forall (λ cookie, single_line_record cookie = true) cookies →
     lines text = "# Netscape HTTP Cookie File" :: "" :: entries ∧
     length (lines text) = (length cookies + 2)%nat).
Proof.
  intros Hver Hload Hne Hrec Henc Hw.
  destruct (records_convert _ _ Hrec Henc) as [out Hout].
  destruct (lines_bodies _ _ (turns_lines _ _ _ Hout)) as (entries & -> & Hone).
  destruct (convert_list_ok w cookies _ Hw Hne Hout) as (w' & Hrun & Hdata & _).
  exists w', entries, (header +:+ cat ((λ entry, entry +:+ newline) <$> entries)).
  split; [by rewrite (main_loaded _ _ Hver Hload)|].
  split; [done|].
  split; [by apply turns_lines, Forall2_fmap_r in Hout|]. split; [done|].
  intros Hsingle. rewrite lines_header, lines_cat by auto.
  split; [done|]. cbn. apply Forall2_length in Hout.
  rewrite length_fmap in Hout. lia.
Qed.

(** C5.  When the input parses to an empty array the run is a failure: it
    prints the abort message, exits with status 1 and reports no converted
    count, and the output file is left holding the header alone.  (When the
    output file cannot be opened the run dies of that instead, with status 1
    as well.) *)
Theorem empty_array_aborts (w : world) :
  accepts_f_strings w = true →
  load json_load w = inr (PList []) →
  ∃ (w' : world) (o : outcome) (out : list string),
    main json_load int_of_str w = (w', o) ∧
    exit_status o = 1 ∧
    printed w w' out ∧ reports_converted out = false ∧
    (can_write w output_file = true →
       empty_input_abort w w' o ∧ file_data w' output_file = Some header) ∧
    (can_write w output_file = false →
       w' = w ∧ o = Uncaught PermissionError).
Proof.
  intros Hver Hload. rewrite (main_loaded _ _ Hver Hload).
  destruct (can_write w output_file) eqn:Hw.
  - destruct (convert_writable (PList []) w Hw)
      as (w1 & _ & Hstd & Hdata & _ & _ & ->).
    rewrite (write_output_items _ (PList []) [] eq_refl) in *. cbn in *.
    assert (printed w (print abort_message w1) [abort_message]) as Hmsg.
    { unfold printed; cbn. by rewrite Hstd. }
    exists (print abort_message w1), (SystemExit 1), [abort_message].
    by repeat split.
  - rewrite (convert_denied _ _ Hw).
    exists w, (Uncaught PermissionError), [].
    repeat split; try done. unfold printed. by rewrite app_nil_r.
Qed.

(** C7.  When the input path does not exist or cannot be read, the run dies
    in [open], at once and without touching anything, of FileNotFoundError
    or PermissionError, and the exit status is 1. *)
Theorem missing_input_is_fatal (w : world) :
  accepts_f_strings w = true →
  files w !! input_file = None ∨
  (∃ f, files w !! input_file = Some f ∧ readable f = false) →
  ∃ e : exn,
    main json_load int_of_str w = (w, Uncaught e) ∧
    not_found_failure w (Uncaught e) ∧
    exit_status (Uncaught e) = 1 ∧
    (files w !! input_file = None → e = FileNotFoundError) ∧
    ((∃ f, files w !! input_file = Some f) → e = PermissionError).
Proof.
  intros Hver Hin.
  assert (∃ e, open_read w input_file = inl e ∧
               (files w !! input_file = None → e = FileNotFoundError) ∧
               ((∃ f, files w !! input_file = Some f) → e = PermissionError))
    as (e & Hopen & Hnone & Hsome).
  { unfold open_read. destruct Hin as [->|(f & -> & ->)].
    - exists FileNotFoundError. split; [done|]. split; [done|]. by intros [? ?].
    - exists PermissionError. by repeat split. }
  exists e. split.
  - apply main_load_failed; [done|]. unfold load. by rewrite Hopen.
  - repeat split; try done. by exists e.
Qed.

(** C8.  A run over a non-empty array of N records whose turns of the loop
    all go through ends normally, with exit status 0, and prints the summary
    with exactly N as the count: "Converted N cookies from JSON to Netscape
    format.", "Saved to ../config/cookies.txt.", "Conversion complete.". *)
Theorem success_reports_count
    (w : world) (cookies : list pyval) (out : list string) :
  accepts_f_strings w = true →
  load json_load w = inr (PList cookies) →
  cookies ≠ [] →
  Forall2 (λ cookie line,
             write_line int_of_str (can_encode w) cookie = inr line)
          cookies out →
  can_write w output_file = true →
  ∃ (w' : world) (o : outcome),
    main json_load int_of_str w = (w', o) ∧
    o = Finished ∧ exit_status o = 0 ∧
    printed w w'
      ["Converted " +:+ py_str (Z.of_nat (length cookies)) +:+
         " cookies from JSON to Netscape format.";
       "Saved to ../config/cookies.txt.";
       "Conversion complete."] ∧
    reports_converted (drop (length (stdout w)) (stdout w')) = true.
Proof.
  intros Hver Hload Hne Hout Hw.
  destruct (convert_list_ok w cookies _ Hw Hne Hout) as (w' & Hrun & _ & Hp & _).
  exists w', Finished. rewrite (main_loaded _ _ Hver Hload).
  repeat split; try done.
  rewrite Hp, drop_app_length. apply summary_reports_converted.
Qed.




(** The loop ends normally only when every turn went through. *)
Lemma write_cookies_ok_inv
    (enc : ascii → bool) (f f' : string) (cookies : list pyval) (u : unit) :
  write_cookies int_of_str enc f cookies = (f', inr u) →
  ∃ out,
    Forall2 (λ cookie line, write_line int_of_str enc cookie = inr line)
            cookies out ∧
    f' = f +:+ cat out.
Proof.
  revert f. induction cookies as [|cookie cookies IH]; intros f; cbn.
  - intros [= <-]. exists []. by rewrite app_empty_r.
  - destruct (write_line int_of_str enc cookie) as [e|line] eqn:Hline;
      [discriminate|].
    intros (out & Hout & ->)%IH. exists (line :: out).
    split; [by constructor|]. by rewrite app_assoc_str.
Qed.

Lemma write_output_ok_inv (enc : ascii → bool) (cookies : pyval) (u : unit) :
  truthy cookies = true →
  (write_output int_of_str enc cookies).2 = inr u →
  ∃ (l : list pyval) (out : list string),
    cookies = PList l ∧ l ≠ [] ∧
    Forall2 (λ cookie line, write_line int_of_str enc cookie = inr line)
            l out ∧
    (write_output int_of_str enc cookies).1 = header +:+ cat out.
Proof.
  intros Htrue. unfold write_output. rewrite write_header.
  destruct cookies as [|b|z|f|s|l|d]; cbn; try discriminate.
  - destruct s as [|c s]; [discriminate Htrue|]. cbn. discriminate.
  - destruct (write_cookies int_of_str enc header l) as [f' [e|u']] eqn:Hl;
      [discriminate|]. cbn. intros _.
    apply write_cookies_ok_inv in Hl as (out & Hout & ->).
    exists l, out. split_and!; try done. by intros ->.
  - destruct (map_to_list d) as [|[k v] kvs] eqn:Hkv; [|discriminate].
    apply map_to_list_empty_iff in Hkv as ->. discriminate Htrue.
Qed.

(** The script ends normally only on a non-empty list whose turns of the
    loop all went through, every line made and written, and then with the
    count of that list. *)
Lemma finished_only_on_lists (w w' : world) :
  main json_load int_of_str w = (w', Finished) →
  ∃ (cookies : list pyval) (out : list string),
    load json_load w = inr (PList cookies) ∧ cookies ≠ [] ∧
    Forall2 (λ cookie line, cookie_line int_of_str cookie = inr line)
            cookies out ∧
    Forall2 (λ cookie line,
               write_line int_of_str (can_encode w) cookie = inr line)
            cookies out ∧
    file_data w' output_file = Some (header +:+ cat out) ∧
    printed w w' (summary (Z.of_nat (length cookies))).
Proof.
  unfold main. destruct (accepts_f_strings w); [|discriminate]. cbn [negb].
  destruct (Z.ltb_spec (version_major w) 3); [discriminate|].
  destruct (load json_load w) as [e|v]; [discriminate|].
  destruct (can_write w output_file) eqn:Hw;
    [|by rewrite (convert_denied _ _ Hw)].
  destruct (convert_writable v w Hw)
    as (w1 & _ & Hstd & Hdata & _ & _ & ->).
  destruct (write_output int_of_str (can_encode w) v).2 as [e|u] eqn:Hloop;
    [discriminate|].
  destruct (report_cases v w1)
    as [[_ ->]|[(_ & e & _ & ->)|(Htrue & n & Hlen & ->)]]; try discriminate.
  intros [= <-].
  destruct (write_output_ok_inv _ v u Htrue Hloop)
    as (l & out & -> & Hne & Hout & Hwritten).
  exists l, out. injection Hlen as <-.
  split_and!; try done.
  - by apply turns_lines in Hout.
  - unfold file_data in *; cbn. by rewrite Hdata, Hwritten.
  - unfold printed; cbn. by rewrite Hstd.
Qed.

End Properties.

(** ** The script on sample inputs *)

(** The example of the specification, end to end. *)
Example session_cookie_run :
  ∃ w', sample_main (sample_world session_text "stale") = (w', Finished) ∧
        file_data w' output_file =
          Some (header +:+ session_entry +:+ newline) ∧
        stdout w' = summary 1.
Proof. eexists. split_and!; by vm_compute. Qed.

Lemma session_cookie_includes_subdomains :
  cookie_line sample_int_of_str session_cookie = inr (session_entry +:+ newline) ∧
  ∃ r, cookie_locals sample_int_of_str session_cookie = inr r ∧
       include_subdomain r = "TRUE".
Proof.
  assert (cookie_line sample_int_of_str session_cookie =
          inr (session_entry +:+ newline)) as Hline by (by vm_compute).
  split; [exact Hline|].
  destruct (include_subdomains_iff_leading_dot sample_int_of_str _ _ Hline)
    as (r & dom & rest & Hloc & Hget & _ & Hdot & _).
  exists r. split; [exact Hloc|]. apply Hdot.
  vm_compute in Hget. injection Hget as <-. by exists "example.com".
Defined.

Lemma dated_cookie_expires_truncated :
  cookie_line sample_int_of_str dated_cookie = inr (dated_entry +:+ newline) ∧
  ∃ r, cookie_locals sample_int_of_str dated_cookie = inr r ∧
       expires r = "1700000000".
Proof.
  assert (cookie_line sample_int_of_str dated_cookie =
          inr (dated_entry +:+ newline)) as Hline by (by vm_compute).
  split; [exact Hline|].
  destruct (expires_default_and_truncation sample_int_of_str _ _ Hline)
    as (r & before & after & Hloc & _ & _ & _ & Hfloat).
  exists r. split; [exact Hloc|]. apply Hfloat. by vm_compute.
Defined.

Lemma bare_cookie_defaults :
  cookie_line sample_int_of_str (PDict ∅) = inr (bare_entry +:+ newline) ∧
  ∃ r, cookie_locals sample_int_of_str (PDict ∅) = inr r ∧
       path r = PStr "/" ∧ secure r = "FALSE".
Proof.
  assert (cookie_line sample_int_of_str (PDict ∅) =
          inr (bare_entry +:+ newline)) as Hline by (by vm_compute).
  split; [exact Hline|].
  destruct (path_and_secure_defaults sample_int_of_str _ _ Hline)
    as (r & dom & p & after & Hloc & Hp & _ & Hpath & Hsec).
  exists r. split; [exact Hloc|]. split.
  - rewrite Hp. f_equal. by apply Hpath.
  - by apply Hsec.
Defined.

Lemma lax_cookie_is_secure :
  cookie_line sample_int_of_str lax_cookie = inr (lax_entry +:+ newline) ∧
  ∃ r, cookie_locals sample_int_of_str lax_cookie = inr r ∧
       secure r = "TRUE".
Proof.
  assert (cookie_line sample_int_of_str lax_cookie =
          inr (lax_entry +:+ newline)) as Hline by (by vm_compute).
  split; [exact Hline|].
  assert (({[ "domain" := PStr "example.com"; "secure" := PStr "false" ]}
            : gmap string pyval) !! "secure" = Some (PStr "false")) as Hsec
    by (by vm_compute).
  destruct (secure_by_truthiness sample_int_of_str _ _ _ Hsec Hline)
    as (r & before & after & Hloc & _ & _ & Hfalse & _).
  exists r. split; [exact Hloc|]. by apply Hfalse.
Defined.

Lemma session_run_has_three_lines :
  let w := sample_world session_text "stale" in
  (accepts_f_strings w = true ∧
   load sample_json_load w = inr (PList [session_cookie]) ∧
   is_cookie_record session_cookie = true ∧
   can_write w output_file = true) ∧
  ∃ w' text,
    sample_main w = (w', Finished) ∧
    file_data w' output_file = Some text ∧
    length (lines text) = 3%nat.
Proof.
  intros w.
  assert (accepts_f_strings w = true) as Hver by (by vm_compute).
  assert (load sample_json_load w = inr (PList [session_cookie])) as Hload
    by (by vm_compute).
  assert (is_cookie_record session_cookie = true) as Hrec by (by vm_compute).
  assert (can_write w output_file = true) as Hw by (by vm_compute).
  split; [done|].
  destruct (output_header_then_one_entry_per_record
              sample_json_load sample_int_of_str w [session_cookie])
    as (w' & entries & text & Hrun & Hdata & _ & _ & Hlines);
    [done|done|done|by constructor|by repeat constructor|done|].
  exists w', text. split_and!; [done|done|].
  apply Hlines. by constructor.
Defined.

(** A value that runs over two lines gives a file of four lines for one
    record. *)
Lemma two_line_value_breaks_line_count :
  let w := sample_world two_line_text "stale" in
  load sample_json_load w = inr (PList [two_line_cookie]) ∧
  is_cookie_record two_line_cookie = true ∧
  ∃ w' text,
    sample_main w = (w', Finished) ∧
    file_data w' output_file = Some text ∧
    lines text = ["# Netscape HTTP Cookie File"; "";
                  tab +:+ "FALSE" +:+ tab +:+ "/" +:+ tab +:+ "FALSE" +:+ tab +:+
                  "2147483647" +:+ tab +:+ tab +:+ "a";
                  "b"] ∧
    length (lines text) ≠ (length [two_line_cookie] + 2)%nat.
Proof.
  intros w. split; [by vm_compute|]. split; [by vm_compute|].
  eexists _, _. split; [by vm_compute|]. split; [by vm_compute|].
  split; by vm_compute.
Qed.

Lemma empty_array_run_aborts :
  let w := sample_world "[]" "stale" in
  (accepts_f_strings w = true ∧ load sample_json_load w = inr (PList [])) ∧
  ∃ w',
    sample_main w = (w', SystemExit 1) ∧
    stdout w' = ["No cookies found in JSON. Aborting."] ∧
    file_data w' output_file = Some header.
Proof.
  intros w.
  assert (accepts_f_strings w = true) as Hver by (by vm_compute).
  assert (load sample_json_load w = inr (PList [])) as Hload by (by vm_compute).
  split; [done|].
  destruct (empty_array_aborts sample_json_load sample_int_of_str w Hver Hload)
    as (w' & o & out & Hrun & _ & _ & _ & Hopen & _).
  destruct Hopen as [[-> Hout] Hdata]; [by vm_compute|].
  exists w'. by split_and!.
Defined.



Lemma no_input_file_is_fatal :
  (accepts_f_strings bare_world = true ∧ files bare_world !! input_file = None) ∧
  sample_main bare_world = (bare_world, Uncaught FileNotFoundError) ∧
  exit_status (Uncaught FileNotFoundError) = 1.
Proof.
  assert (accepts_f_strings bare_world = true) as Hver by (by vm_compute).
  assert (files bare_world !! input_file = None) as Hnone by (by vm_compute).
  split; [done|].
  destruct (missing_input_is_fatal sample_json_load sample_int_of_str
              bare_world Hver (or_introl Hnone))
    as (e & Hrun & _ & _ & Hmissing & _).
  rewrite (Hmissing Hnone) in Hrun. by split.
Defined.

Lemma two_records_reported :
  let w := sample_world "[{}, {}]" "stale" in
  (accepts_f_strings w = true ∧
   load sample_json_load w = inr (PList [PDict ∅; PDict ∅]) ∧
   can_write w output_file = true) ∧
  ∃ w',
    sample_main w = (w', Finished) ∧ exit_status Finished = 0 ∧
    stdout w' = ["Converted 2 cookies from JSON to Netscape format.";
                 "Saved to ../config/cookies.txt.";
                 "Conversion complete."].
Proof.
  intros w.
  assert (accepts_f_strings w = true) as Hver by (by vm_compute).
  assert (load sample_json_load w = inr (PList [PDict ∅; PDict ∅])) as Hload
    by (by vm_compute).
  assert (can_write w output_file = true) as Hw by (by vm_compute).
  split; [done|].
  destruct (success_reports_count sample_json_load sample_int_of_str w
              [PDict ∅; PDict ∅]
              [bare_entry +:+ newline; bare_entry +:+ newline])
    as (w' & o & Hrun & -> & _ & Hout & _);
    [done|done|done| |done|].
  { repeat constructor; by vm_compute. }
  exists w'. by split_and!.
Defined.


(** [json.load] reads more than JSON: it takes the literal NaN, and the run
    over it ends normally, the flag being truthy. *)
Example nan_literal_converts :
  let w := sample_world nan_flag_text "stale" in
  load mixed_json_load w = inr (PList [nan_flag_cookie]) ∧
  ∃ w', main mixed_json_load sample_int_of_str w = (w', Finished) ∧
        file_data w' output_file =
          Some (header +:+ tab +:+ "FALSE" +:+ tab +:+ "/" +:+ tab +:+ "TRUE" +:+
                tab +:+ "2147483647" +:+ tab +:+ tab +:+ newline) ∧
        stdout w' = summary 1.
Proof. cbn zeta. split; [by vm_compute|]. eexists. split_and!; by vm_compute. Qed.


(** * Further properties of the script *)

Section Further.

Variable json_load : string → result pyval.
Variable int_of_str : string → option Z.

(** Closes the routine parts of a statement about the end of a run. *)
Ltac settle_run :=
  split_and!; try done; try (cbn; lia);
  try (split; intros ?; (discriminate || done)).

(** *** What a run leaves alone *)

(** The version check of lines 14-16 never fires.  An interpreter older
    than Python 3 knows no f-strings: it refuses the script with SyntaxError
    before it runs any of it, so does Python 3.0 to 3.5, and every other
    interpreter passes the check.  No run prints the upgrade message, and a
    run that ends in [exit(1)] has taken the empty-input abort. *)
Theorem version_check_never_fires (w : world) :
  ∃ out : list string,
    let run := main json_load int_of_str w in
    printed w run.1 out ∧
    (upgrade_message ∉ out) ∧
    (accepts_f_strings w = false →
       run = (w, Uncaught SyntaxError) ∧ out = []) ∧
    (version_major w < 3 → accepts_f_strings w = false) ∧
    (version_major w = 3 → version_minor w < 6 →
       accepts_f_strings w = false) ∧
    (∀ code, run.2 = SystemExit code → code = 1 ∧ out = [abort_message]).
Proof.
  assert (printed w w []) as Hquiet.
  { unfold printed. by rewrite app_nil_r. }
  assert (version_major w < 3 → accepts_f_strings w = false) as Hold.
  { intros Hv. unfold accepts_f_strings.
    destruct (Z.ltb_spec 3 (version_major w)); [lia|].
    destruct (Z.eqb_spec (version_major w) 3); [lia|done]. }
  assert (version_major w = 3 → version_minor w < 6 →
          accepts_f_strings w = false) as Hmid.
  { intros Hv Hm. unfold accepts_f_strings. rewrite Hv. cbn.
    by destruct (Z.leb_spec 6 (version_minor w)); [lia|]. }
  cbn zeta. unfold main.
  destruct (accepts_f_strings w) eqn:Hacc; cbn [negb].
  2:{ exists []. cbn. split_and!; try done. apply not_elem_of_nil. }
  rewrite (accepts_f_strings_passes _ Hacc).
  destruct (load json_load w) as [e|v].
  { exists []. cbn. split_and!; try done. apply not_elem_of_nil. }
  destruct (can_write w output_file) eqn:Hw.
  2:{ rewrite (convert_denied _ _ _ Hw). exists []. cbn.
      split_and!; try done. apply not_elem_of_nil. }
  destruct (convert_writable int_of_str v w Hw)
    as (w1 & _ & Hstd & _ & _ & _ & ->).
  assert (printed w w1 []) as Hquiet1.
  { unfold printed. by rewrite Hstd, app_nil_r. }
  destruct (write_output int_of_str (can_encode w) v).2 as [e|u].
  { exists []. cbn. split_and!; try done. apply not_elem_of_nil. }
  destruct (report_cases v w1)
    as [[_ ->]|[(_ & e & _ & ->)|(_ & n & _ & ->)]]; cbn.
  - exists [abort_message]. split_and!; try done.
    + unfold printed; cbn. by rewrite Hstd.
    + by intros [= ]%list_elem_of_singleton.
    + by intros code [= <-].
  - exists []. split_and!; try done. apply not_elem_of_nil.
  - exists (summary n). split_and!; try done.
    + unfold printed; cbn. by rewrite Hstd.
    + unfold summary. rewrite !elem_of_cons. rewrite elem_of_nil.
      intros [H|[H|[H|[]]]]; discriminate H.
Qed.

(** A run changes no file but the output file, on any path through the
    script; the input file in particular reads the same afterwards. *)
Theorem only_output_file_changes (w : world) (q : string) :
  q ≠ output_file →
  let w' := (main json_load int_of_str w).1 in
  files w' !! q = files w !! q ∧
  version_major w' = version_major w ∧
  open_read w' input_file = open_read w input_file.
Proof.
  intros Hq. cbn zeta.
  assert (∀ p, p ≠ output_file →
            files (main json_load int_of_str w).1 !! p = files w !! p ∧
            version_major (main json_load int_of_str w).1 = version_major w)
    as Hframe.
  { intros p Hp. unfold main.
    destruct (accepts_f_strings w); [|done]. cbn [negb].
    destruct (version_major w <? 3); [done|].
    destruct (load json_load w) as [e|v]; [done|].
    destruct (can_write w output_file) eqn:Hw;
      [|by rewrite (convert_denied _ _ _ Hw)].
    destruct (convert_frame int_of_str (can_encode w) v) as (out & o & Hrun).
    destruct (Hrun w eq_refl Hw) as (w' & -> & _ & _ & [Hver _] & _ & Hfiles).
    cbn. auto. }
  destruct (Hframe q Hq) as [Hfiles Hver]. split_and!; try done.
  unfold open_read. by destruct (Hframe input_file) as [-> _].
Qed.

(** A run only adds to the standard output, three lines at most.  It
    announces a conversion exactly when it ends normally, which is exactly
    when the exit status is 0; every other run exits with status 1. *)
Theorem converted_reported_iff_success (w : world) :
  ∃ out : list string,
    let run := main json_load int_of_str w in
    printed w run.1 out ∧ (length out ≤ 3)%nat ∧
    (reports_converted out = true ↔ run.2 = Finished) ∧
    (run.2 = Finished ↔ exit_status run.2 = 0) ∧
    (run.2 ≠ Finished → exit_status run.2 = 1).
Proof.
  assert (printed w w []) as Hquiet.
  { unfold printed. by rewrite app_nil_r. }
  cbn zeta. unfold main.
  destruct (accepts_f_strings w); cbn [negb].
  2:{ exists []. cbn. settle_run. }
  destruct (version_major w <? 3).
  { exists ["This script requires Python 3. Please upgrade your Python version."].
    cbn. settle_run. }
  destruct (load json_load w) as [e|v].
  { exists []. cbn. settle_run. }
  destruct (can_write w output_file) eqn:Hw.
  2:{ rewrite (convert_denied _ _ _ Hw). exists []. cbn. settle_run. }
  destruct (convert_writable int_of_str v w Hw)
    as (w1 & _ & Hstd & _ & _ & _ & ->).
  assert (printed w w1 []) as Hquiet1.
  { unfold printed. by rewrite Hstd, app_nil_r. }
  destruct (write_output int_of_str (can_encode w) v).2 as [e|u].
  { exists []. cbn. settle_run. }
  destruct (report_cases v w1)
    as [[_ ->]|[(_ & e & _ & ->)|(_ & n & _ & ->)]]; cbn.
  - exists [abort_message]. settle_run.
    unfold printed; cbn. by rewrite Hstd.
  - exists []. settle_run.
  - exists (summary n). settle_run.
    + unfold printed; cbn. by rewrite Hstd.
    + by rewrite summary_reports_converted.
Qed.

(** *** What a run destroys *)

(** Once [json.load] has returned and the output file is open, the old text
    of the output file is gone, however the run ends.  What the file holds
    afterwards is the header and the lines this run wrote, nothing else: the
    header alone for a value that cannot be iterated, otherwise the lines of
    the turns of the loop up to the first that failed, or of all of them. *)
Theorem old_output_is_always_lost (w : world) (cookies : pyval) :
  accepts_f_strings w = true →
  load json_load w = inr cookies →
  can_write w output_file = true →
  ∃ out : list string,
    file_data (main json_load int_of_str w).1 output_file =
      Some (header +:+ cat out) ∧
    match py_iter cookies with
    | inl _ => out = []
    | inr items =>
        Forall2 (λ cookie line,
                   write_line int_of_str (can_encode w) cookie = inr line)
                items out ∨
        ∃ good rest bad e,
          items = good ++ bad :: rest ∧
          Forall2 (λ cookie line,
                     write_line int_of_str (can_encode w) cookie = inr line)
                  good out ∧
          write_line int_of_str (can_encode w) bad = inl e
    end.
Proof.
  intros Hver Hload Hw. rewrite (main_loaded _ _ _ _ Hver Hload).
  destruct (convert_frame int_of_str (can_encode w) cookies)
    as (printed_lines & o & Hrun).
  destruct (Hrun w eq_refl Hw) as (w' & -> & _ & Hdata & _). cbn.
  rewrite Hdata. destruct (py_iter cookies) as [e|items] eqn:Hiter.
  - exists []. split; [|done]. unfold write_output.
    rewrite write_header, Hiter. cbn. by rewrite app_empty_r.
  - rewrite (write_output_items int_of_str _ _ _ Hiter).
    destruct (turns_split int_of_str (can_encode w) items)
      as [[out Hout]|(good & rest & bad & out & e & -> & Hgood & Hbad)].
    + exists out. rewrite (write_cookies_ok _ _ _ _ _ Hout). by split; [|left].
    + exists out.
      rewrite (write_cookies_partial _ _ _ _ _ _ _ _ Hgood Hbad).
      split; [done|]. right. by exists good, rest, bad, e.
Qed.

(** When the output file cannot be opened the run dies of PermissionError
    after reading the input, however good the input is: nothing is printed
    and no file changes, the stale output file stays as it was. *)
Theorem unwritable_output_is_fatal (w : world) (cookies : pyval) :
  accepts_f_strings w = true →
  load json_load w = inr cookies →
  can_write w output_file = false →
  main json_load int_of_str w = (w, Uncaught PermissionError) ∧
  exit_status (Uncaught PermissionError) = 1 ∧
  ∃ f, files w !! output_file = Some f ∧ writable f = false.
Proof.
  intros Hver Hload Hw. rewrite (main_loaded _ _ _ _ Hver Hload).
  rewrite (convert_denied _ _ _ Hw). split_and!; try done.
  unfold can_write in Hw. destruct (files w !! output_file) as [f|]; [|done].
  by exists f.
Qed.

(** Nothing is rolled back.  When the turn of the element after [good]
    fails, the run dies of the exception of that turn, prints nothing, and
    leaves in the output file the header and the lines of [good]; the
    elements after the failing one are never looked at. *)
Theorem failing_element_leaves_partial_file
    (w : world) (good rest : list pyval) (bad : pyval)
    (out : list string) (e : exn) :
  accepts_f_strings w = true →
  load json_load w = inr (PList (good ++ bad :: rest)) →
  can_write w output_file = true →
  Forall2 (λ cookie line,
             write_line int_of_str (can_encode w) cookie = inr line)
          good out →
  write_line int_of_str (can_encode w) bad = inl e →
  ∃ w',
    main json_load int_of_str w = (w', Uncaught e) ∧
    file_data w' output_file = Some (header +:+ cat out) ∧
    stdout w' = stdout w ∧
    ∀ rest',
      (write_output int_of_str (can_encode w)
         (PList (good ++ bad :: rest'))) =
      (header +:+ cat out, inl e).
Proof.
  intros Hver Hload Hw Hgood Hbad.
  rewrite (main_loaded _ _ _ _ Hver Hload).
  destruct (convert_list_dies int_of_str w good rest bad out e Hw Hgood Hbad)
    as (w' & Hrun & Hdata & Hstd).
  exists w'. split_and!; try done.
  intros rest'.
  rewrite (write_output_items int_of_str _
             (PList (good ++ bad :: rest')) _ eq_refl).
  by apply write_cookies_partial.
Qed.

(** *** What the loop accepts *)

Lemma str_or_missing_iff (o : option pyval) (dflt : string) :
  str_or_missing o = true ↔ ∃ s, default (PStr dflt) o = PStr s.
Proof.
  split; [apply str_or_missing_default|].
  intros [s Hs]. by destruct o as [[]|].
Qed.

(** A mapping with four strings and a date [int] accepts converts. *)
Lemma mapping_converts (d : gmap string pyval) (n : Z) :
  str_or_missing (d !! "domain") = true →
  str_or_missing (d !! "path") = true →
  str_or_missing (d !! "name") = true →
  str_or_missing (d !! "value") = true →
  py_int int_of_str (default (PInt 2147483647) (d !! "expirationDate")) = inr n →
  ∃ line, cookie_line int_of_str (PDict d) = inr line.
Proof.
  intros Hd Hp Hname Hv Hn.
  apply (str_or_missing_default _ "") in Hd as [sd Hd].
  apply (str_or_missing_default _ "/") in Hp as [sp Hp].
  apply (str_or_missing_default _ "") in Hname as [sn Hname].
  apply (str_or_missing_default _ "") in Hv as [sv Hv].
  destruct (cookie_line_dict int_of_str d sd sp sn sv n) as [_ ->]; eauto.
Qed.

(** The loop is more liberal than the data model: the turn of an element
    goes through exactly when the element is a mapping whose domain, path,
    name and value are strings or missing, whose expirationDate [int]
    accepts, and whose four strings the encoding of the output file can
    write; [secure] may hold anything, and so may every other key. *)
Theorem element_converts_iff (enc : ascii → bool) (cookie : pyval) :
  (∃ line, write_line int_of_str enc cookie = inr line) ↔
  ∃ d : gmap string pyval,
    cookie = PDict d ∧
    str_or_missing (d !! "domain") = true ∧
    str_or_missing (d !! "path") = true ∧
    str_or_missing (d !! "name") = true ∧
    str_or_missing (d !! "value") = true ∧
    (∃ n, py_int int_of_str
            (default (PInt 2147483647) (d !! "expirationDate")) = inr n) ∧
    encodable_record enc cookie = true.
Proof.
  split.
  - intros [line [Hline Henc]%write_line_inr].
    destruct (cookie_line_inv _ _ _ Hline)
      as (d & sd & sp & sn & sv & n & -> & Hd & Hp & Hn & Hname & Hv).
    exists d. split_and!; try done.
    1-4: eapply str_or_missing_iff; eauto.
    by exists n.
  - intros (d & -> & Hd & Hp & Hname & Hv & [n Hn] & Henc).
    destruct (mapping_converts d n) as [line Hline]; try done.
    exists line. by apply write_line_inr.
Qed.

(** What [int] refuses, and how. *)
Lemma py_int_refuses (v : pyval) (e : exn) :
  py_int int_of_str v = inl e →
  (e = TypeError ∧ (v = PNone ∨ (∃ l, v = PList l) ∨ ∃ d, v = PDict d)) ∨
  (e = ValueError ∧
     (v = PFloat S754_nan ∨ ∃ s, v = PStr s ∧ int_of_str s = None)) ∨
  (e = OverflowError ∧ ∃ sign, v = PFloat (S754_infinity sign)).
Proof.
  destruct v as [|b|z|f|s|l|d]; cbn; try discriminate.
  - intros [= <-]. left. eauto.
  - destruct f as [sg|sg| |sg m ex]; cbn; try discriminate; intros [= <-].
    + right. right. eauto.
    + right. left. eauto.
  - destruct (int_of_str s) eqn:Hs; [discriminate|]. intros [= <-].
    right. left. split; [done|]. right. eauto.
  - intros [= <-]. left. eauto.
  - intros [= <-]. left. eauto.
Qed.

(** [join] and the line feed after it fail with TypeError or not at all. *)
Lemma join_refuses (a b c d : string) (p n v : pyval) (e : exn) :
  (body ← py_join tab [PStr a; PStr b; p; PStr c; PStr d; n; v];
   mret (body +:+ newline)) = (inl e : result string) →
  e = TypeError.
Proof.
  destruct p; cbn; try (by intros [= <-]).
  destruct n; cbn; try (by intros [= <-]).
  destruct v; cbn; try (by intros [= <-]).
Qed.

(** How the line of a mapping fails to be made. *)
Lemma line_failure_kinds (d : gmap string pyval) (e : exn) :
  cookie_line int_of_str (PDict d) = inl e →
  let date := default (PInt 2147483647) (d !! "expirationDate") in
  (e = AttributeError ∧ str_or_missing (d !! "domain") = false) ∨
  (str_or_missing (d !! "domain") = true ∧
   py_int int_of_str date = inl e ∧
   ((e = TypeError ∧
       (date = PNone ∨ (∃ l, date = PList l) ∨ ∃ m, date = PDict m)) ∨
    (e = ValueError ∧
       (date = PFloat S754_nan ∨ ∃ s, date = PStr s ∧ int_of_str s = None)) ∨
    (e = OverflowError ∧ ∃ sign, date = PFloat (S754_infinity sign)))) ∨
  (e = TypeError ∧
   str_or_missing (d !! "domain") = true ∧
   (∃ n, py_int int_of_str date = inr n) ∧
   (str_or_missing (d !! "path") = false ∨
    str_or_missing (d !! "name") = false ∨
    str_or_missing (d !! "value") = false)).
Proof.
  intros Hline date.
  destruct (str_or_missing (d !! "domain")) eqn:Hd.
  2:{ left. split; [|done]. revert Hline. unfold cookie_line, cookie_locals.
      cbn. by destruct (d !! "domain") as [[]|]; cbn; try discriminate;
        intros [= <-]. }
  right.
  destruct (py_int int_of_str date) as [e'|n] eqn:Hn.
  { left. assert (e = e') as <-.
    { revert Hline. unfold cookie_line, cookie_locals. cbn.
      apply (str_or_missing_default _ "") in Hd as [sd ->]. cbn.
      fold date. rewrite Hn. cbn. by intros [= <-]. }
    split_and!; try done. by apply py_int_refuses. }
  right.
  assert (e = TypeError) as ->.
  { revert Hline. unfold cookie_line, cookie_locals. cbn.
    apply (str_or_missing_default _ "") in Hd as [sd ->]. cbn.
    fold date. rewrite Hn. cbn. apply join_refuses. }
  split_and!; try done; [by exists n|].
  destruct (str_or_missing (d !! "path")) eqn:Hp; [|by left].
  destruct (str_or_missing (d !! "name")) eqn:Hname; [|by right; left].
  destruct (str_or_missing (d !! "value")) eqn:Hv; [|by right; right].
  destruct (mapping_converts d n) as [line Hok]; try done.
  congruence.
Qed.

(** How the turn of a mapping fails, in the order the loop body runs.  A
    domain that is not a string fails first, with AttributeError, whatever
    the rest holds.  Then the date: TypeError for null, an array or an
    object, ValueError for NaN or a string [int] cannot read, OverflowError
    for an infinity.  Then a path, name or value that is not a string fails
    in [join], with TypeError.  Last, with the line made, [f.write] fails
    with UnicodeEncodeError when the encoding cannot write one of the four
    strings.  No value fails the turn in another way. *)
Theorem element_failure_kinds
    (enc : ascii → bool) (d : gmap string pyval) (e : exn) :
  write_line int_of_str enc (PDict d) = inl e →
  let date := default (PInt 2147483647) (d !! "expirationDate") in
  (e = AttributeError ∧ str_or_missing (d !! "domain") = false) ∨
  (str_or_missing (d !! "domain") = true ∧
   py_int int_of_str date = inl e ∧
   ((e = TypeError ∧
       (date = PNone ∨ (∃ l, date = PList l) ∨ ∃ m, date = PDict m)) ∨
    (e = ValueError ∧
       (date = PFloat S754_nan ∨ ∃ s, date = PStr s ∧ int_of_str s = None)) ∨
    (e = OverflowError ∧ ∃ sign, date = PFloat (S754_infinity sign)))) ∨
  (e = TypeError ∧
   str_or_missing (d !! "domain") = true ∧
   (∃ n, py_int int_of_str date = inr n) ∧
   (str_or_missing (d !! "path") = false ∨
    str_or_missing (d !! "name") = false ∨
    str_or_missing (d !! "value") = false)) ∨
  (e = UnicodeEncodeError ∧
   str_or_missing (d !! "domain") = true ∧
   (∃ n, py_int int_of_str date = inr n) ∧
   str_or_missing (d !! "path") = true ∧
   str_or_missing (d !! "name") = true ∧
   str_or_missing (d !! "value") = true ∧
   encodable_record enc (PDict d) = false).
Proof.
  intros [Hline|(-> & Henc & line & Hline)]%write_line_inl date.
  - destruct (line_failure_kinds d e Hline) as [?|[?|?]]; auto.
  - do 3 right.
    destruct (cookie_line_inv _ _ _ Hline)
      as (d' & sd & sp & sn & sv & n & [= <-] & Hd & Hp & Hn & Hname & Hv).
    split_and!; try done.
    2: by exists n.
    all: eapply str_or_missing_iff; eauto.
Qed.

(** *** Reading a line back *)

Lemma has_tab_app (a b : string) :
  has_tab (a +:+ b) = has_tab a || has_tab b.
Proof.
  induction a as [|x a IH]; [done|].
  change (has_tab (String x (a +:+ b)) = has_tab (String x a) || has_tab b).
  cbn. by rewrite IH, orb_assoc.
Qed.

Lemma fields_one (a : string) : has_tab a = false → fields a = [a].
Proof.
  induction a as [|x a IH]; [done|]. cbn.
  intros [Hx Ha]%orb_false_elim. by rewrite Hx, IH.
Qed.

Lemma fields_cons (a rest : string) :
  has_tab a = false → fields (a +:+ tab +:+ rest) = a :: fields rest.
Proof.
  induction a as [|x a IH]; [done|].
  change (String x a +:+ tab +:+ rest) with (String x (a +:+ tab +:+ rest)).
  cbn. intros [Hx Ha]%orb_false_elim. by rewrite Hx, IH.
Qed.

(** Decimal digits hold no tab. *)
Lemma has_tab_pretty_N_go (x : N) (s : string) :
  has_tab (pretty_N_go x s) = has_tab s.
Proof.
  revert s. induction (N.lt_wf_0 x) as [x _ IH]; intros s.
  destruct (decide (0 < x)%N) as [Hx|Hx].
  - rewrite pretty_N_go_step by done.
    rewrite IH by (by apply N.div_lt).
    cbn. unfold pretty_N_char. by repeat case_match.
  - assert (x = 0%N) as -> by lia. done.
Qed.

Lemma has_tab_py_str (n : Z) : has_tab (py_str n) = false.
Proof.
  assert (∀ p : positive, has_tab (pretty p) = false) as Hpos.
  { intros p. unfold pretty, pretty_positive, pretty, pretty_N.
    case_decide; [done|]. by rewrite has_tab_pretty_N_go. }
  destruct n as [|p|p]; [done|apply Hpos|].
  unfold py_str, pretty, pretty_Z. rewrite has_tab_app. apply Hpos.
Qed.

Lemma tab_free_default (o : option pyval) (dflt s : string) :
  tab_free o = true → has_tab dflt = false →
  default (PStr dflt) o = PStr s → has_tab s = false.
Proof.
  destruct o as [v|]; cbn.
  - intros H _ ->. by apply negb_true_iff.
  - by intros _ ? [= <-].
Qed.

(** The line of a record whose strings hold no tab reads back: cut at its
    tabs, the line without its line feed gives exactly seven fields, which
    are the domain, the flag, the path, the flag, the date, the name and the
    value the loop had in hand; and both flags are "TRUE" or "FALSE". *)
Theorem line_reads_back_as_seven_fields (cookie : pyval) (line : string) :
  cookie_line int_of_str cookie = inr line →
  tab_free_record cookie = true →
  ∃ (r : locals) (body sd sp sn sv : string),
    cookie_locals int_of_str cookie = inr r ∧
    line = body +:+ newline ∧
    domain r = PStr sd ∧ path r = PStr sp ∧
    name r = PStr sn ∧ value r = PStr sv ∧
    fields body =
      [sd; include_subdomain r; sp; secure r; expires r; sn; sv] ∧
    (include_subdomain r = "TRUE" ∨ include_subdomain r = "FALSE") ∧
    (secure r = "TRUE" ∨ secure r = "FALSE").
Proof.
  intros Hline Hfree.
  destruct (cookie_line_spec _ _ _ Hline)
    as (d & r & sd & sp & sn & sv & n & -> & Hloc & Hd & _ & Hr & Hp & Hname & Hv & ->).
  cbn in Hfree. rewrite !andb_true_iff in Hfree.
  destruct Hfree as [[[Hd1 Hp1] Hn1] Hv1].
  apply (tab_free_default _ "" sd) in Hd1; [|done..].
  apply (tab_free_default _ "/" sp) in Hp1; [|done..].
  apply (tab_free_default _ "" sn) in Hn1; [|done..].
  apply (tab_free_default _ "" sv) in Hv1; [|done..].
  exists r.
  exists (sd +:+ tab +:+ include_subdomain r +:+ tab +:+ sp +:+ tab +:+
          secure r +:+ tab +:+ expires r +:+ tab +:+ sn +:+ tab +:+ sv).
  exists sd, sp, sn, sv.
  split; [done|]. split; [by rewrite !app_assoc_str|].
  assert (has_tab (include_subdomain r) = false ∧
          has_tab (secure r) = false ∧
          (include_subdomain r = "TRUE" ∨ include_subdomain r = "FALSE") ∧
          (secure r = "TRUE" ∨ secure r = "FALSE")) as (Hi & Hs & Hi' & Hs').
  { subst r; cbn. by destruct (String.prefix "." sd), (truthy _); auto. }
  assert (has_tab (expires r) = false) as He.
  { subst r; cbn. apply has_tab_py_str. }
  subst r; cbn in *. split_and!; try done.
  rewrite !fields_cons by done. by rewrite fields_one.
Qed.

(** *** Dates that are not floats *)

(** An integer date is written digit for digit, with its sign, and nothing
    is lost: the text of the expires field determines the integer.  A
    boolean date is written as 1 or 0, and a string date is accepted when
    [int] reads it, and written as what [int] read. *)
Theorem integer_date_is_written_exactly
    (d : gmap string pyval) (r : locals) :
  cookie_locals int_of_str (PDict d) = inr r →
  (∀ z, d !! "expirationDate" = Some (PInt z) →
     expires r = py_str z ∧ ∀ z', expires r = py_str z' → z' = z) ∧
  (∀ b, d !! "expirationDate" = Some (PBool b) →
     expires r = if b then "1" else "0") ∧
  (∀ s, d !! "expirationDate" = Some (PStr s) →
     ∃ z, int_of_str s = Some z ∧ expires r = py_str z).
Proof.
  intros Hloc.
  apply cookie_locals_inv in Hloc as (d' & sd & n & [= <-] & _ & Hn & ->).
  cbn. split_and!.
  - intros z Hz. rewrite Hz in Hn. injection Hn as <-.
    split; [done|]. intros z' Hz'. symmetry. by apply (inj pretty).
  - intros b Hb. rewrite Hb in Hn. injection Hn as <-. by destruct b.
  - intros s Hs. rewrite Hs in Hn. cbn in Hn.
    destruct (int_of_str s) as [z|]; [|discriminate].
    injection Hn as <-. by exists z.
Qed.

End Further.

(** ** Further properties on sample inputs *)

Lemma python2_run_is_refused :
  version_major old_world < 3 ∧
  sample_main old_world = (old_world, Uncaught SyntaxError) ∧
  file_data old_world output_file = Some "stale".
Proof.
  assert (version_major old_world < 3) as Hver by (by vm_compute).
  split; [done|].
  destruct (version_check_never_fires
              sample_json_load sample_int_of_str old_world)
    as (out & _ & _ & Hrefused & Hold & _).
  destruct (Hrefused (Hold Hver)) as [Hrun _].
  split; [exact Hrun|by vm_compute].
Defined.

Lemma session_run_keeps_input :
  let w := sample_world session_text "stale" in
  input_file ≠ output_file ∧
  file_data (sample_main w).1 input_file = Some session_text.
Proof.
  intros w.
  assert (input_file ≠ output_file) as Hne by (by vm_compute).
  split; [done|].
  destruct (only_output_file_changes
              sample_json_load sample_int_of_str w input_file Hne)
    as (Hfiles & _).
  unfold file_data, sample_main. rewrite Hfiles. by vm_compute.
Defined.

Lemma mixed_array_leaves_one_line :
  let w := sample_world "[{}, 1]" "stale" in
  (accepts_f_strings w = true ∧
   load mixed_json_load w = inr (PList ([PDict ∅] ++ PInt 1 :: [])) ∧
   can_write w output_file = true ∧
   write_line sample_int_of_str (can_encode w) (PInt 1) =
     inl AttributeError) ∧
  ∃ w',
    main mixed_json_load sample_int_of_str w = (w', Uncaught AttributeError) ∧
    file_data w' output_file = Some (header +:+ bare_entry +:+ newline) ∧
    stdout w' = [].
Proof.
  intros w.
  assert (accepts_f_strings w = true) as Hver by (by vm_compute).
  assert (load mixed_json_load w = inr (PList ([PDict ∅] ++ PInt 1 :: [])))
    as Hload by (by vm_compute).
  assert (can_write w output_file = true) as Hw by (by vm_compute).
  assert (write_line sample_int_of_str (can_encode w) (PInt 1) =
          inl AttributeError) as Hbad by (by vm_compute).
  split; [done|].
  destruct (failing_element_leaves_partial_file
              mixed_json_load sample_int_of_str w
              [PDict ∅] [] (PInt 1) [bare_entry +:+ newline] AttributeError
              Hver Hload Hw)
    as (w' & Hrun & Hdata & Hout & _); [|done|].
  { repeat constructor; by vm_compute. }
  exists w'. split_and!; [done| |done].
  rewrite Hdata. by vm_compute.
Defined.

Lemma accented_value_fails_in_write :
  write_line sample_int_of_str ascii_only accented_cookie =
    inl UnicodeEncodeError ∧
  cookie_line sample_int_of_str accented_cookie =
    inr (tab +:+ "FALSE" +:+ tab +:+ "/" +:+ tab +:+ "FALSE" +:+ tab +:+
         "2147483647" +:+ tab +:+ tab +:+ accented +:+ newline) ∧
  encodable_record ascii_only accented_cookie = false.
Proof.
  assert (write_line sample_int_of_str ascii_only accented_cookie =
          inl UnicodeEncodeError) as Hturn by (by vm_compute).
  split; [done|]. split; [by vm_compute|].
  destruct (element_failure_kinds sample_int_of_str _ _ _ Hturn)
    as [[Habs _]|[(_ & Hdate & _)|[[Habs _]|(_ & _ & _ & _ & _ & _ & Henc)]]];
    [discriminate Habs|by vm_compute in Hdate|discriminate Habs|exact Henc].
Defined.

Lemma scalar_input_still_truncates_output :
  let w := sample_world "5" "stale" in
  (accepts_f_strings w = true ∧ load sample_json_load w = inr (PInt 5) ∧
   can_write w output_file = true ∧
   file_data w output_file = Some "stale") ∧
  file_data (sample_main w).1 output_file = Some header.
Proof.
  intros w. split; [by vm_compute|].
  destruct (old_output_is_always_lost
              sample_json_load sample_int_of_str w (PInt 5))
    as (out & Hdata & Hout); [by vm_compute..|].
  cbn in Hout. subst out. unfold sample_main. rewrite Hdata. by vm_compute.
Defined.

Lemma locked_output_survives :
  let w := locked_world session_text in
  (accepts_f_strings w = true ∧
   load sample_json_load w = inr (PList [session_cookie]) ∧
   can_write w output_file = false) ∧
  sample_main w = (w, Uncaught PermissionError) ∧
  file_data w output_file = Some "stale".
Proof.
  intros w.
  assert (accepts_f_strings w = true) as Hver by (by vm_compute).
  assert (load sample_json_load w = inr (PList [session_cookie])) as Hload
    by (by vm_compute).
  assert (can_write w output_file = false) as Hw by (by vm_compute).
  split; [done|].
  destruct (unwritable_output_is_fatal sample_json_load sample_int_of_str
              w _ Hver Hload Hw) as (Hrun & _).
  split; [done|by vm_compute].
Defined.

Lemma session_run_was_a_list :
  let w := sample_world session_text "stale" in
  (∃ w', sample_main w = (w', Finished)) ∧
  ∃ cookies, load sample_json_load w = inr (PList cookies) ∧ length cookies = 1%nat.
Proof.
  intros w.
  assert (∃ w', sample_main w = (w', Finished)) as [w' Hrun].
  { eexists. by vm_compute. }
  split; [by exists w'|].
  destruct (finished_only_on_lists sample_json_load sample_int_of_str w w' Hrun)
    as (cookies & out & Hload & _ & _ & _ & _ & Hout).
  exists cookies. split; [done|].
  vm_compute in Hload. by injection Hload as <-.
Defined.

Lemma session_line_reads_back :
  (cookie_line sample_int_of_str session_cookie =
     inr (session_entry +:+ newline) ∧
   tab_free_record session_cookie = true) ∧
  ∃ r body,
    cookie_locals sample_int_of_str session_cookie = inr r ∧
    session_entry +:+ newline = body +:+ newline ∧
    length (fields body) = 7%nat ∧
    fields body !! 4%nat = Some (expires r).
Proof.
  assert (cookie_line sample_int_of_str session_cookie =
          inr (session_entry +:+ newline)) as Hline by (by vm_compute).
  assert (tab_free_record session_cookie = true) as Hfree by (by vm_compute).
  split; [done|].
  destruct (line_reads_back_as_seven_fields sample_int_of_str _ _ Hline Hfree)
    as (r & body & sd & sp & sn & sv & Hloc & Hbody & _ & _ & _ & _ & Hf & _).
  exists r, body. split_and!; [done|done|by rewrite Hf|by rewrite Hf].
Defined.

Lemma early_cookie_date_written :
  ∃ r, cookie_locals sample_int_of_str early_cookie = inr r ∧
       expires r = "-86400".
Proof.
  assert (∃ r, cookie_locals sample_int_of_str early_cookie = inr r) as [r Hloc].
  { eexists. by vm_compute. }
  exists r. split; [done|].
  destruct (integer_date_is_written_exactly sample_int_of_str _ r Hloc)
    as (Hint & _).
  destruct (Hint (-86400)) as [-> _]; by vm_compute.
Defined.
